(** * Verification of the presentation scripts of [scripts/document-generator]

    The development embeds two command-line programs of the repository:

    - [run_ppt_script.py], the sandboxed runner for python-pptx scripts
      (module [RunPptScript]);
    - [extract_ppt_images.py], the slide-image extractor
      (module [ExtractPptImages]).

    Both are straight-line Python programs whose behaviour consists of
    effects on the process environment: the argument vector, standard input
    and output, the working directory, the environment-variable table and the
    file system.  They are embedded in a state-and-exception monad over an
    explicit record of that environment, with Python's [try]/[except]/[finally]
    as combinators.  Every library call of the runner appends an event to a
    chronological log, so that statements about the order of effects can be
    made. *)

From Stdlib Require Import List ZArith NArith Bool Ascii String Lia.
Import ListNotations.

(** ** Python strings *)

(** A Python [str] is a sequence of Unicode code points. *)
Definition char := N.
Definition str := list char.

(** [u "abc"] is the [str] whose code points are the characters of an ASCII
    literal. *)
Definition u (s : string) : str := map N_of_ascii (list_ascii_of_string s).

Definition nl : char := 10%N.   (* line feed *)
Definition dq : char := 34%N.   (* double quote *)
Definition bsl : char := 92%N.  (* backslash *)
Definition slash : char := 47%N.

Fixpoint str_eqb (a b : str) : bool :=
  match a, b with
  | [], [] => true
  | x :: a', y :: b' => N.eqb x y && str_eqb a' b'
  | _, _ => false
  end.

(** [s.startswith(prefix)] *)
Fixpoint startswith (s prefix : str) {struct prefix} : bool :=
  match prefix, s with
  | [], _ => true
  | p :: prefix', c :: s' => N.eqb c p && startswith s' prefix'
  | _ :: _, [] => false
  end.

(** [s.endswith(suffix)] *)
Definition endswith (s suffix : str) : bool :=
  startswith (rev s) (rev suffix).

(** [needle in s] *)
Fixpoint contains (s needle : str) : bool :=
  startswith s needle ||
  match s with
  | [] => false
  | _ :: s' => contains s' needle
  end.

(** [c.isspace()]: the code points CPython classifies as whitespace. *)
Definition isspace (c : char) : bool :=
  (((9 <=? c) && (c <=? 13)) || ((28 <=? c) && (c <=? 32))
   || (c =? 133) || (c =? 160) || (c =? 5760)
   || ((8192 <=? c) && (c <=? 8202))
   || (c =? 8232) || (c =? 8233) || (c =? 8239) || (c =? 8287)
   || (c =? 12288))%N.

(** [s.lstrip()], [s.rstrip()] and [s.strip()] without arguments. *)
Fixpoint lstrip (s : str) : str :=
  match s with
  | [] => []
  | c :: s' => if isspace c then lstrip s' else s
  end.

Definition rstrip (s : str) : str := rev (lstrip (rev s)).

Definition strip (s : str) : str := rstrip (lstrip s).

(** Truth value of a string: [not s] holds of the empty string only. *)
Definition is_empty (s : str) : bool :=
  match s with [] => true | _ :: _ => false end.

(** [s.lower()], restricted to what the programs observe: the lowered text
    is only searched for ASCII words none of whose letters is the lower-case
    form of a code point outside [A-Z]. *)
Definition lower_char (c : char) : char :=
  if ((65 <=? c) && (c <=? 90))%N then (c + 32)%N else c.

Definition lower (s : str) : str := map lower_char s.

(** [sep.join(parts)] *)
Fixpoint join (sep : str) (parts : list str) : str :=
  match parts with
  | [] => []
  | [p] => p
  | p :: rest => p ++ sep ++ join sep rest
  end.

(** [s.split(sep)] for a one-character separator. *)
Fixpoint split (sep : char) (s : str) : list str :=
  match s with
  | [] => [[]]
  | c :: s' =>
      if N.eqb c sep then [] :: split sep s'
      else match split sep s' with
           | [] => [[c]]
           | w :: ws => (c :: w) :: ws
           end
  end.

(** Decimal rendering of integers, as [str(n)] and ["{n}"] produce it. *)
Fixpoint uint_digits (d : Decimal.uint) : str :=
  match d with
  | Decimal.Nil => []
  | Decimal.D0 d' => 48%N :: uint_digits d'
  | Decimal.D1 d' => 49%N :: uint_digits d'
  | Decimal.D2 d' => 50%N :: uint_digits d'
  | Decimal.D3 d' => 51%N :: uint_digits d'
  | Decimal.D4 d' => 52%N :: uint_digits d'
  | Decimal.D5 d' => 53%N :: uint_digits d'
  | Decimal.D6 d' => 54%N :: uint_digits d'
  | Decimal.D7 d' => 55%N :: uint_digits d'
  | Decimal.D8 d' => 56%N :: uint_digits d'
  | Decimal.D9 d' => 57%N :: uint_digits d'
  end.

Definition str_of_int (n : Z) : str :=
  match n with
  | Z0 => [48%N]
  | Zpos p => uint_digits (Pos.to_uint p)
  | Zneg p => 45%N :: uint_digits (Pos.to_uint p)
  end.

(** ** [json.dumps] *)

#[local] Unset Elimination Schemes.
Inductive json :=
| JBool (b : bool)
| JInt (n : Z)
| JStr (s : str)
| JList (items : list json)
| JDict (items : list (str * json)).
#[local] Set Elimination Schemes.

Definition hex_digit (n : N) : char :=
  if (n <? 10)%N then (48 + n)%N else (87 + n)%N.

(** ["{0:04x}".format(n)] for [n < 0x10000] *)
Definition hex4 (n : N) : str :=
  [ hex_digit ((n / 4096) mod 16); hex_digit ((n / 256) mod 16);
    hex_digit ((n / 16) mod 16); hex_digit (n mod 16) ]%N.

(** One character of [json.encoder.py_encode_basestring_ascii]
    ([ensure_ascii=True], the default of [json.dumps]). *)
Definition escape_char (c : char) : str :=
  if (c =? 34)%N then [bsl; dq]
  else if (c =? 92)%N then [bsl; bsl]
  else if (c =? 10)%N then bsl :: u "n"
  else if (c =? 13)%N then bsl :: u "r"
  else if (c =? 9)%N then bsl :: u "t"
  else if (c =? 8)%N then bsl :: u "b"
  else if (c =? 12)%N then bsl :: u "f"
  else if ((32 <=? c) && (c <=? 126))%N then [c]
  else if (c <? 65536)%N then bsl :: u "u" ++ hex4 c
  else
    let n := (c - 65536)%N in
    let s1 := (55296 + (n / 1024) mod 1024)%N in
    let s2 := (56320 + n mod 1024)%N in
    bsl :: u "u" ++ hex4 s1 ++ bsl :: u "u" ++ hex4 s2.

Definition json_quote (s : str) : str :=
  dq :: flat_map escape_char s ++ [dq].

(** [json.dumps(v)] with the default separators [", "] and [": "]. *)
Fixpoint json_dumps (v : json) : str :=
  match v with
  | JBool true => u "true"
  | JBool false => u "false"
  | JInt n => str_of_int n
  | JStr s => json_quote s
  | JList items => u "[" ++ join (u ", ") (map json_dumps items) ++ u "]"
  | JDict items =>
      u "{" ++
      join (u ", ")
        (map (fun kv => match kv with
                        | (k, x) => json_quote k ++ u ": " ++ json_dumps x
                        end) items)
      ++ u "}"
  end.

(** The printable ASCII range. *)
Definition printable (c : char) : Prop := (32 <= c <= 126)%N.

Definition printableb (c : char) : bool := ((32 <=? c) && (c <=? 126))%N.

(** ** Exceptions *)

(** A raised exception, reduced to what the programs observe of it. *)
Record exn := {
  exc_name : str;          (* type(e).__name__ *)
  exc_mro : list str;      (* the names of the classes of type(e).__mro__ *)
  exc_text : str;          (* str(e) *)
  exc_traceback : str;     (* traceback.format_exc() while e is handled *)
  exc_code : Z             (* process status requested by a SystemExit *)
}.

(** [isinstance(e, cls)] *)
Definition isinstance (cls : str) (e : exn) : bool :=
  existsb (str_eqb cls) (exc_mro e).

Definition SystemExit (code : Z) : exn :=
  {| exc_name := u "SystemExit";
     exc_mro := [u "SystemExit"; u "BaseException"; u "object"];
     exc_text := str_of_int code;
     exc_traceback := [];
     exc_code := code |}.

Inductive Result (A : Type) :=
| Ok (a : A)
| Raised (e : exn).
Arguments Ok {A} a.
Arguments Raised {A} e.

(** ** The process environment *)

Inductive file_kind := RegularFile | Directory.

Record OS := {
  argv : list str;                 (* sys.argv *)
  stdin : Result str;              (* sys.stdin.buffer.read().decode('utf-8') *)
  cwd_tail : str;                  (* working directory, after its leading slash *)
  environ : list (str * str);      (* os.environ *)
  fs : list (str * file_kind);     (* existing absolute paths *)
  stdout : str;                    (* everything written to sys.stdout *)
  tmp_root : str;                  (* tempfile.gettempdir() *)
  tmp_suffix : str;                (* random part of the next temporary name *)
  platform : str;                  (* sys.platform *)
  path_cmds : list str             (* commands shutil.which resolves *)
}.

Definition set_cwd_tail (t : str) (o : OS) : OS :=
  {| argv := argv o; stdin := stdin o; cwd_tail := t; environ := environ o;
     fs := fs o; stdout := stdout o; tmp_root := tmp_root o;
     tmp_suffix := tmp_suffix o; platform := platform o;
     path_cmds := path_cmds o |}.

Definition set_environ (e : list (str * str)) (o : OS) : OS :=
  {| argv := argv o; stdin := stdin o; cwd_tail := cwd_tail o; environ := e;
     fs := fs o; stdout := stdout o; tmp_root := tmp_root o;
     tmp_suffix := tmp_suffix o; platform := platform o;
     path_cmds := path_cmds o |}.

Definition set_fs (f : list (str * file_kind)) (o : OS) : OS :=
  {| argv := argv o; stdin := stdin o; cwd_tail := cwd_tail o;
     environ := environ o; fs := f; stdout := stdout o;
     tmp_root := tmp_root o; tmp_suffix := tmp_suffix o;
     platform := platform o; path_cmds := path_cmds o |}.

Definition set_stdout (s : str) (o : OS) : OS :=
  {| argv := argv o; stdin := stdin o; cwd_tail := cwd_tail o;
     environ := environ o; fs := fs o; stdout := s; tmp_root := tmp_root o;
     tmp_suffix := tmp_suffix o; platform := platform o;
     path_cmds := path_cmds o |}.

(** [os.getcwd()]: always an absolute path. *)
Definition getcwd (o : OS) : str := slash :: cwd_tail o.

(** *** [posixpath] *)

Definition isabs (p : str) : bool := startswith p [slash].

(** [os.path.join(a, b)] *)
Definition path_join (a b : str) : str :=
  if startswith b [slash] then b
  else if is_empty a || endswith a [slash] then a ++ b
  else a ++ slash :: b.

(** The loop of [normpath] over the components; [new_comps] is kept with its
    last element first. *)
Definition normpath_comps (rooted : bool) (comps : list str) : list str :=
  rev (fold_left
         (fun new_comps comp =>
            if is_empty comp || str_eqb comp (u ".") then new_comps
            else if negb (str_eqb comp (u ".."))
                    || (negb rooted && match new_comps with [] => true | _ => false end)
                    || match new_comps with
                       | last :: _ => str_eqb last (u "..")
                       | [] => false
                       end
                 then comp :: new_comps
                 else match new_comps with
                      | _ :: rest => rest
                      | [] => []
                      end)
         comps []).

(** [os.path.normpath(path)] *)
Definition normpath (path : str) : str :=
  if is_empty path then u "."
  else
    let initial_slashes :=
      if startswith path [slash] then
        if startswith path [slash; slash]
           && negb (startswith path [slash; slash; slash])
        then 2 else 1
      else 0 in
    let comps :=
      normpath_comps (match initial_slashes with 0 => false | _ => true end)
                     (split slash path) in
    let path' := repeat slash initial_slashes ++ join [slash] comps in
    if is_empty path' then u "." else path'.

(** [os.path.abspath(path)] in a process whose working directory is [cwd]. *)
Definition abspath (cwd : str) (path : str) : str :=
  if isabs path then normpath path
  else normpath (path_join cwd path).

(** *** File system *)

(** The absolute path a system call resolves [p] to. *)
Definition resolve (o : OS) (p : str) : str := path_join (getcwd o) p.

Fixpoint fs_lookup (f : list (str * file_kind)) (p : str) : option file_kind :=
  match f with
  | [] => None
  | (q, k) :: f' => if str_eqb q p then Some k else fs_lookup f' p
  end.

(** [os.path.exists(p)] *)
Definition path_exists (o : OS) (p : str) : bool :=
  match fs_lookup (fs o) (resolve o p) with
  | Some _ => true
  | None => false
  end.

(** [os.path.isfile(p)] *)
Definition path_isfile (o : OS) (p : str) : bool :=
  match fs_lookup (fs o) (resolve o p) with
  | Some RegularFile => true
  | _ => false
  end.

(** [p] is the directory [d] or lies below it. *)
Definition inside (d p : str) : bool :=
  str_eqb p d || startswith p (d ++ [slash]).

(** The file system after [shutil.rmtree(d, ignore_errors=True)]. *)
Definition remove_tree (d : str) (f : list (str * file_kind))
  : list (str * file_kind) :=
  filter (fun e => negb (inside d (fst e))) f.

(** [os.environ.get(key)] *)
Fixpoint env_get (env : list (str * str)) (key : str) : option str :=
  match env with
  | [] => None
  | (k, v) :: env' => if str_eqb k key then Some v else env_get env' key
  end.

(** [os.environ[key] = value] *)
Definition env_set (key value : str) (env : list (str * str))
  : list (str * str) :=
  (key, value) :: filter (fun e => negb (str_eqb (fst e) key)) env.

(** ** Effects *)

(** The library calls of the programs, in the order they are made.  The event
    of a script execution records the environment before and after it. *)
Inductive Event :=
| EvSetenv (key value : str)
| EvMkdtemp (dir : str)
| EvChdir (dir : str)
| EvExec (source : str) (before : OS) (outcome : Result unit) (after : OS)
| EvRmtree (dir : str)
| EvPrint (text : str)
| EvSubprocessRun (cmd : list str) (timeout : option Z) (cwd : str)
| EvConvertFromPath (pdf : str) (dpi : Z) (timeout : option Z).

Record World := { os : OS; log : list Event }.

(** Computations that read and change the environment and may raise. *)
Definition M (A : Type) : Type := World -> Result A * World.

Definition ret {A} (a : A) : M A := fun w => (Ok a, w).

Definition bind {A B} (m : M A) (k : A -> M B) : M B :=
  fun w =>
    match m w with
    | (Ok a, w') => k a w'
    | (Raised e, w') => (Raised e, w')
    end.

Definition raise {A} (e : exn) : M A := fun w => (Raised e, w).

Declare Scope py_scope.
Delimit Scope py_scope with py.
Notation "x <- m ;; k" := (bind m (fun x => k))
  (at level 100, m at next level, right associativity) : py_scope.
Notation "m ;; k" := (bind m (fun _ => k))
  (at level 100, right associativity) : py_scope.
Open Scope py_scope.

(** [if cond: body] *)
Definition when (cond : bool) (body : M unit) : M unit :=
  if cond then body else ret tt.

(** An [except cls as e: handler] clause. *)
Definition clause (A : Type) : Type := ((exn -> bool) * (exn -> M A))%type.

Fixpoint find_handler {A} (clauses : list (clause A)) (e : exn)
  : option (M A) :=
  match clauses with
  | [] => None
  | (matches, handler) :: rest =>
      if matches e then Some (handler e) else find_handler rest e
  end.

(** [try: body except ...]: the first clause that matches handles the
    exception; an exception no clause matches propagates. *)
Definition try_except {A} (body : M A) (clauses : list (clause A)) : M A :=
  fun w =>
    match body w with
    | (Ok a, w') => (Ok a, w')
    | (Raised e, w') =>
        match find_handler clauses e with
        | Some handler => handler w'
        | None => (Raised e, w')
        end
    end.

(** [try: body finally: cleanup]: the cleanup runs however the body ends, and
    the body's result or exception is then passed on. *)
Definition try_finally {A} (body : M A) (cleanup : M unit) : M A :=
  fun w =>
    match body w with
    | (r, w') =>
        match cleanup w' with
        | (Ok _, w'') => (r, w'')
        | (Raised e, w'') => (Raised e, w'')
        end
    end.

Definition read {A} (f : OS -> A) : M A := fun w => (Ok (f (os w)), w).

Definition effect (ev : Event) (f : OS -> OS) : M unit :=
  fun w => (Ok tt, {| os := f (os w); log := log w ++ [ev] |}).

(** [sys.exit(code)] *)
Definition sys_exit {A} (code : Z) : M A := raise (SystemExit code).

(** [print(text)] *)
Definition print (text : str) : M unit :=
  fun w => effect (EvPrint text)
             (set_stdout (stdout (os w) ++ text ++ [nl])) w.

(** [os.environ[key] = value] *)
Definition os_environ_set (key value : str) : M unit :=
  fun w => effect (EvSetenv key value)
             (set_environ (env_set key value (environ (os w)))) w.

(** [sys.stdin.buffer.read().decode('utf-8')] *)
Definition stdin_read_decode : M str :=
  fun w => (stdin (os w), w).

(** [tempfile.mkdtemp(prefix=prefix)]: a directory with a random name
    under the temporary root is created and its absolute path returned.  The
    random part of the name is the host's [tmp_suffix]. *)
Definition tempfile_mkdtemp (prefix : str) : M str :=
  fun w =>
    let dir := abspath (getcwd (os w))
                 (path_join (tmp_root (os w)) (prefix ++ tmp_suffix (os w))) in
    (Ok dir,
     {| os := set_fs ((dir, Directory) :: fs (os w)) (os w);
        log := log w ++ [EvMkdtemp dir] |}).

(** [os.chdir(dir)], to a directory that can be entered. *)
Definition os_chdir (dir : str) : M unit :=
  fun w => effect (EvChdir dir)
             (set_cwd_tail (tl (resolve (os w) dir))) w.

(** [shutil.rmtree(dir, ignore_errors=True)]; the file system has no
    permissions, so that nothing keeps the tree from being removed. *)
Definition shutil_rmtree (dir : str) : M unit :=
  fun w => effect (EvRmtree dir)
             (set_fs (remove_tree (resolve (os w) dir) (fs (os w)))) w.

(** What terminates the process: the status of an uncaught [SystemExit],
    status 1 with a traceback on standard error for any other uncaught
    exception, status 0 when the program runs to its end. *)
Definition exit_status (r : Result unit) : Z :=
  match r with
  | Ok _ => 0
  | Raised e => if isinstance (u "SystemExit") e then exc_code e else 1
  end.

Definition initial (o : OS) : World := {| os := o; log := [] |}.

(** *** Observations on the log *)

(** The texts the program printed, in order. *)
Definition reports (l : list Event) : list str :=
  flat_map (fun ev => match ev with EvPrint text => [text] | _ => [] end) l.

(** The changes of working directory and the removals of directory trees. *)
Definition dir_events (l : list Event) : list Event :=
  filter (fun ev => match ev with
                    | EvChdir _ | EvRmtree _ => true
                    | _ => false
                    end) l.

(** The events of sandbox set-up, execution and teardown. *)
Definition isolation_event (ev : Event) : bool :=
  match ev with
  | EvMkdtemp _ | EvChdir _ | EvExec _ _ _ _ | EvRmtree _ => true
  | _ => false
  end.

Definition exec_event_b (ev : Event) : bool :=
  match ev with
  | EvExec _ _ _ _ => true
  | _ => false
  end.

(** No text is printed before the directory tree has been removed; [torn]
    tells whether it already has. *)
Fixpoint reports_follow_teardown (torn : bool) (l : list Event) : bool :=
  match l with
  | [] => true
  | EvRmtree _ :: l' => reports_follow_teardown true l'
  | EvPrint _ :: l' => torn && reports_follow_teardown torn l'
  | _ :: l' => reports_follow_teardown torn l'
  end.

(** The script ran to its end or left by [SystemExit]. *)
Definition clean (r : Result unit) : bool :=
  match r with
  | Ok _ => true
  | Raised e => isinstance (u "SystemExit") e
  end.

(** The script raised an error, an instance of [Exception], that is not a
    [SystemExit]. *)
Definition runtime_failure (r : Result unit) : bool :=
  match r with
  | Ok _ => false
  | Raised e => negb (isinstance (u "SystemExit") e)
                && isinstance (u "Exception") e
  end.

(** *** Properties of computations, stated on the log *)

Definition print_event (ev : Event) : bool :=
  match ev with
  | EvPrint _ => true
  | _ => false
  end.

(** Every event [m] logs satisfies [P]. *)
Definition extends (P : Event -> bool) {A} (m : M A) : Prop :=
  forall w, exists delta,
    log (snd (m w)) = log w ++ delta /\ forallb P delta = true.

(** [m] returns without any effect, or raises after printing at most. *)
Definition silent {A} (m : M A) : Prop :=
  forall w,
    match m w with
    | (Ok _, w') => w' = w
    | (Raised _, w') =>
        exists delta, log w' = log w ++ delta /\ forallb print_event delta = true
    end.

(** ** The sandboxed script runner, [run_ppt_script.py] *)

Module RunPptScript.

(** Values bound in the namespace handed to [exec]. *)
Inductive py_value :=
| PyStr (s : str)
| PyBuiltins.        (* the module's own __builtins__ *)

Definition js_markers : list str :=
  [u "const "; u "var "; u "let "; u "function "; u "require(";
   u "//"; u "/*"; u "=>"; u "module.exports"].

Definition failure (message : str) : json :=
  JDict [(u "success", JBool false); (u "error", JStr message)].

Definition success : json := JDict [(u "success", JBool true)].

Definition msg_missing_argument : str := u "Missing output path argument".

Definition msg_stdin (e : exn) : str :=
  u "Failed to read script from stdin: " ++ exc_text e.

Definition msg_empty : str := u "Empty script received".

Definition msg_wrong_language : str :=
  u "ERROR: El script parece ser JavaScript/PptxGenJS, no Python." ++ [nl] ++
  u "Por favor genera el script usando Python con python-pptx." ++ [nl] ++
  u "El script debe empezar con:" ++ [nl] ++
  u "  from pptx import Presentation" ++ [nl] ++
  u "  from pptx.util import Inches, Pt" ++ [nl] ++
  u "  ..." ++ [nl] ++
  u "Y terminar con:" ++ [nl] ++
  u "  prs.save(os.environ['PPTX_OUTPUT_PATH'])".

(** ["{type(e).__name__}: {e}\n{tb}"] *)
Definition msg_runtime (e : exn) : str :=
  exc_name e ++ u ": " ++ exc_text e ++ [nl] ++ exc_traceback e.

Definition msg_no_artifact : str :=
  u "Script executed but did not save the presentation. " ++
  u "Make sure the last line is:" ++ [nl] ++
  u "  prs.save(os.environ['PPTX_OUTPUT_PATH'])".

Section Runner.

(** The Python interpreter: what [compile(source, filename, 'exec')] followed
    by [exec(compiled, namespace)] does to the environment, and how it ends.
    A source that does not compile ends with the [SyntaxError] raised by
    [compile].  The script runs inside the runner's process, so it may change
    the working directory, the variables, the files and write to standard
    output; only scripts that hand control back are covered. *)
Variable interp : str -> str -> list (str * py_value) -> OS -> Result unit * OS.

Definition py_exec (source filename : str) (namespace : list (str * py_value))
  : M unit :=
  fun w =>
    let r := interp source filename namespace (os w) in
    (fst r,
     {| os := snd r;
        log := log w ++ [EvExec source (os w) (fst r) (snd r)] |}).

Definition main : M unit :=
  args <- read argv ;;
  when (List.length args <? 2)%nat
    (print (json_dumps (failure msg_missing_argument)) ;;
     sys_exit 1) ;;

  output_path <- read (fun o => abspath (getcwd o) (nth 1 args [])) ;;

  (* Expose output path to script code *)
  os_environ_set (u "PPTX_OUTPUT_PATH") output_path ;;

  (* Read script code from stdin *)
  script_code <-
    try_except stdin_read_decode
      [(isinstance (u "Exception"),
        fun e => print (json_dumps (failure (msg_stdin e))) ;; sys_exit 1)] ;;

  when (is_empty (strip script_code))
    (print (json_dumps (failure msg_empty)) ;;
     sys_exit 1) ;;

  (* Detect JavaScript/PptxGenJS code early and give a clear error *)
  let stripped := lstrip script_code in
  when (existsb (startswith stripped) js_markers)
    (print (json_dumps (failure msg_wrong_language)) ;;
     sys_exit 1) ;;

  (* Use a safe temp working directory *)
  tmp_cwd <- tempfile_mkdtemp (u "dome_ppt_sandbox_") ;;
  original_cwd <- read getcwd ;;
  try_finally
    (os_chdir tmp_cwd ;;
     (* Execute the script in an isolated namespace *)
     let namespace :=
       [(u "__name__", PyStr (u "__main__"));
        (u "__file__", PyStr (u "<ppt_script>"));
        (u "__builtins__", PyBuiltins)] in
     try_except
       (py_exec script_code (u "<ppt_script>") namespace)
       [(isinstance (u "SystemExit"), fun _ => ret tt);
        (isinstance (u "Exception"),
         fun e => print (json_dumps (failure (msg_runtime e))) ;;
                  sys_exit 1)])
    (os_chdir original_cwd ;;
     shutil_rmtree tmp_cwd) ;;

  (* Verify the file was created *)
  present <- read (fun o => path_exists o output_path) ;;
  when (negb present)
    (print (json_dumps (failure msg_no_artifact)) ;;
     sys_exit 1) ;;

  print (json_dumps success).

(** One invocation of the program in environment [o]: the exit status of the
    process and the final world. *)
Definition invoke (o : OS) : Z * World :=
  let r := main (initial o) in (exit_status (fst r), snd r).

(** *** The states an invocation passes through

    Names for the values and environments [main] computes on its way; that
    [main] does compute them is proved below ([main_executes] and the
    lemmas before it). *)

(** The value of [output_path]. *)
Definition output_path_of (o : OS) : str :=
  abspath (getcwd o) (nth 1 (argv o) []).

(** The environment once the output path is exposed to the script. *)
Definition exposed (o : OS) : OS :=
  set_environ (env_set (u "PPTX_OUTPUT_PATH") (output_path_of o) (environ o)) o.

(** The value of [tmp_cwd]. *)
Definition sandbox_of (o : OS) : str :=
  abspath (getcwd o)
    (path_join (tmp_root o) (u "dome_ppt_sandbox_" ++ tmp_suffix o)).

(** The environment in which the script starts: the sandbox directory exists
    and is the working directory. *)
Definition sandboxed (o : OS) : OS :=
  set_cwd_tail (tl (sandbox_of o))
    (set_fs ((sandbox_of o, Directory) :: fs o) (exposed o)).

Definition namespace : list (str * py_value) :=
  [(u "__name__", PyStr (u "__main__"));
   (u "__file__", PyStr (u "<ppt_script>"));
   (u "__builtins__", PyBuiltins)].

(** How the script ends and the environment it leaves. *)
Definition script_run (o : OS) (code : str) : Result unit * OS :=
  interp code (u "<ppt_script>") namespace (sandboxed o).

(** The environment after [print(text)]. *)
Definition printed (text : str) (o : OS) : OS :=
  set_stdout (stdout o ++ text ++ [nl]) o.

(** The environment after the [finally] block, entered in [o2]. *)
Definition torn_down (o o2 : OS) : OS :=
  set_fs (remove_tree (sandbox_of o) (fs o2)) (set_cwd_tail (cwd_tail o) o2).

Definition setup_events (o : OS) : list Event :=
  [EvSetenv (u "PPTX_OUTPUT_PATH") (output_path_of o);
   EvMkdtemp (sandbox_of o); EvChdir (sandbox_of o)].

Definition exec_event (o : OS) (code : str) : Event :=
  EvExec code (sandboxed o) (fst (script_run o code)) (snd (script_run o code)).

Definition teardown_events (o : OS) : list Event :=
  [EvChdir (getcwd o); EvRmtree (sandbox_of o)].

(** The end of an invocation whose script ended without a classified
    failure, in environment [o2]. *)
Definition verified (o : OS) (code : str) (o2 : OS) : Result unit * World :=
  let o3 := torn_down o o2 in
  let events := setup_events o ++ [exec_event o code] ++ teardown_events o in
  if path_exists o3 (output_path_of o) then
    (Ok tt,
     {| os := printed (json_dumps success) o3;
        log := events ++ [EvPrint (json_dumps success)] |})
  else
    (Raised (SystemExit 1),
     {| os := printed (json_dumps (failure msg_no_artifact)) o3;
        log := events ++ [EvPrint (json_dumps (failure msg_no_artifact))] |}).

(** The end of an invocation that executes the script [code]. *)
Definition executed (o : OS) (code : str) : Result unit * World :=
  let o2 := snd (script_run o code) in
  match fst (script_run o code) with
  | Ok _ => verified o code o2
  | Raised e =>
      if isinstance (u "SystemExit") e then verified o code o2
      else if isinstance (u "Exception") e then
        (Raised (SystemExit 1),
         {| os := torn_down o (printed (json_dumps (failure (msg_runtime e))) o2);
            log := setup_events o
                   ++ [exec_event o code;
                       EvPrint (json_dumps (failure (msg_runtime e)))]
                   ++ teardown_events o |})
      else
        (Raised e,
         {| os := torn_down o o2;
            log := setup_events o ++ [exec_event o code]
                   ++ teardown_events o |})
  end.

End Runner.

(** *** The result line

    An invocation that ended with status [status] in world [w] printed one
    text and nothing else; the text holds no line break, it is, with the
    line break [print] adds, the end of standard output, and it is the success
    record with status 0 or a failure record with status 1. *)
Definition single_result_line (status : Z) (w : World) : Prop :=
  exists line,
    reports (log w) = [line]
    /\ ~ In nl line
    /\ (exists prior, stdout (os w) = prior ++ line ++ [nl])
    /\ ((line = json_dumps success /\ status = 0%Z)
        \/ (exists message,
              line = json_dumps (failure message) /\ status = 1%Z)).

(** *** Sample scripts on a sample host *)

Definition script_hello : str := u "print('hi')".

Definition script_save : str :=
  u "import os" ++ [nl] ++
  u "from pptx import Presentation" ++ [nl] ++
  u "os.chdir('/')" ++ [nl] ++
  u "Presentation().save(os.environ['PPTX_OUTPUT_PATH'])".

Definition script_save_exit : str :=
  script_save ++ [nl] ++ u "raise SystemExit(2)".

Definition script_exit : str := u "import sys; sys.exit(3)".

Definition script_error : str := u "raise ValueError('boom')".

Definition script_stop : str := u "raise GeneratorExit('stop')".

Definition script_js : str := u "const pptx = require('pptxgenjs');".

Definition script_blank : str := [32%N; nl; 9%N].

Definition traceback_of (line : str) : str :=
  u "Traceback (most recent call last):" ++ [nl] ++
  u "  File " ++ [dq] ++ u "run_ppt_script.py" ++ [dq] ++
  u ", line 74, in main" ++ [nl] ++
  u "    exec(compiled, namespace)" ++ [nl] ++
  u "  File " ++ [dq] ++ u "<ppt_script>" ++ [dq] ++
  u ", line 1, in <module>" ++ [nl] ++
  line ++ [nl].

Definition value_error : exn :=
  {| exc_name := u "ValueError";
     exc_mro := [u "ValueError"; u "Exception"; u "BaseException"; u "object"];
     exc_text := u "boom";
     exc_traceback := traceback_of (u "ValueError: boom");
     exc_code := 1 |}.

Definition generator_exit : exn :=
  {| exc_name := u "GeneratorExit";
     exc_mro := [u "GeneratorExit"; u "BaseException"; u "object"];
     exc_text := u "stop";
     exc_traceback := traceback_of (u "GeneratorExit: stop");
     exc_code := 1 |}.

Definition syntax_error : exn :=
  {| exc_name := u "SyntaxError";
     exc_mro := [u "SyntaxError"; u "Exception"; u "BaseException"; u "object"];
     exc_text := u "invalid syntax (<ppt_script>, line 1)";
     exc_traceback := traceback_of (u "SyntaxError: invalid syntax");
     exc_code := 1 |}.

(** The effect of [Presentation().save(os.environ['PPTX_OUTPUT_PATH'])]. *)
Definition save_presentation (o : OS) : OS :=
  match env_get (environ o) (u "PPTX_OUTPUT_PATH") with
  | Some p => set_fs ((p, RegularFile) :: fs o) o
  | None => o
  end.

(** What CPython does on the sample scripts; any other source is taken not
    to compile. *)
Definition sample_python (source filename : str)
    (namespace : list (str * py_value)) (o : OS) : Result unit * OS :=
  if str_eqb source script_hello then
    (Ok tt, set_stdout (stdout o ++ u "hi" ++ [nl]) o)
  else if str_eqb source script_save then
    (Ok tt, save_presentation (set_cwd_tail [] o))
  else if str_eqb source script_save_exit then
    (Raised (SystemExit 2), save_presentation (set_cwd_tail [] o))
  else if str_eqb source script_exit then (Raised (SystemExit 3), o)
  else if str_eqb source script_error then (Raised value_error, o)
  else if str_eqb source script_stop then (Raised generator_exit, o)
  else (Raised syntax_error, o).

(** A host that passes [out/deck.pptx] as the output path and [script] on
    standard input. *)
Definition sample_host (script : str) : OS :=
  {| argv := [u "run_ppt_script.py"; u "out/deck.pptx"];
     stdin := Ok script;
     cwd_tail := u "home/user";
     environ := [(u "HOME", u "/home/user")];
     fs := [(u "/home/user", Directory); (u "/home/user/out", Directory);
            (u "/tmp", Directory)];
     stdout := [];
     tmp_root := u "/tmp";
     tmp_suffix := u "k3x9a_b2";
     platform := u "linux";
     path_cmds := [] |}.

End RunPptScript.

(** ** The slide-image extractor, [extract_ppt_images.py] *)

Module ExtractPptImages.

Definition EXTract_TIMEOUT : Z := 60.  (* seconds *)

(** [subprocess.CompletedProcess], with [capture_output] and [text] set. *)
Record CompletedProcess := {
  returncode : Z;
  proc_stdout : str;
  proc_stderr : str
}.

(** [shutil.which(cmd)], as a truth value. *)
Definition shutil_which (o : OS) (cmd : str) : bool :=
  existsb (str_eqb cmd) (path_cmds o).

(** [ntpath.join(a, b)] for a component [b] without drive or root; UNC
    prefixes are not modelled. *)
Definition nt_join (a b : str) : str :=
  let drive :=
    match a with
    | d :: 58%N :: _ => [d; 58%N]
    | _ => []
    end in
  let path := skipn (List.length drive) a in
  if is_empty path || endswith path [bsl] || endswith path [slash]
  then drive ++ path ++ b
  else drive ++ path ++ bsl :: b.

(** Find LibreOffice executable (soffice or libreoffice). *)
Definition find_libreoffice (o : OS) : option str :=
  match find (shutil_which o) [u "soffice"; u "libreoffice"; u "LibreOffice"] with
  | Some cmd => Some cmd
  | None =>
      (* Common install locations *)
      let paths :=
        if str_eqb (platform o) (u "darwin") then
          [u "/Applications/LibreOffice.app/Contents/MacOS/soffice";
           u "/Applications/LibreOffice.app/Contents/MacOS/soffice.com"]
        else if str_eqb (platform o) (u "win32") then
          let base :=
            match env_get (environ o) (u "ProgramFiles") with
            | Some v => v
            | None => u "C:" ++ bsl :: u "Program Files"
            end in
          [nt_join (nt_join (nt_join base (u "LibreOffice")) (u "program"))
                   (u "soffice.exe");
           nt_join (nt_join (nt_join base (u "LibreOffice")) (u "program"))
                   (u "soffice.com")]
        else [] in
      find (path_isfile o) paths
  end.

(** [Path(p).stem]: the last component without its suffix. *)
Definition path_name (p : str) : str := last (split slash p) [].

Fixpoint index_of (c : char) (s : str) : option nat :=
  match s with
  | [] => None
  | x :: s' =>
      if N.eqb x c then Some 0%nat
      else match index_of c s' with
           | Some i => Some (S i)
           | None => None
           end
  end.

Definition path_stem (p : str) : str :=
  let name := path_name p in
  match index_of 46%N (rev name) with
  | Some j =>
      let i := (List.length name - 1 - j)%nat in
      if (0 <? i)%nat && (i <? List.length name - 1)%nat
      then firstn i name else name
  | None => name
  end.

(** [list(Path(dir).glob('*.pdf'))], as strings, in directory order. *)
Definition glob_pdf (o : OS) (dir : str) : list str :=
  flat_map
    (fun e =>
       let p := fst e in
       let prefix := resolve o dir ++ [slash] in
       if startswith p prefix then
         let name := skipn (List.length prefix) p in
         if negb (is_empty name) && negb (existsb (N.eqb slash) name)
            && endswith name (u ".pdf")
         then [path_join dir name] else []
       else [])
    (fs o).

Definition failure (message : str) : json :=
  JDict [(u "success", JBool false); (u "error", JStr message)].

Definition msg_missing_argument : str := u "Missing PPTX path argument".

Definition msg_not_found (pptx_path : str) : str :=
  u "File not found: " ++ pptx_path.

Definition msg_no_libreoffice : str :=
  u "LibreOffice no encontrado. Instale LibreOffice para ver presentaciones como im"
  ++ 225%N :: u "genes: https://www.libreoffice.org".

Definition msg_no_pdf2image (e : exn) : str :=
  u "pdf2image no instalado. Ejecute: pip install pdf2image. Tambi"
  ++ 233%N :: u "n necesita poppler (brew install poppler en macOS). "
  ++ exc_text e.

Definition msg_convert_pdf (err : str) : str :=
  u "Error al convertir PPTX a PDF: " ++ err.

Definition msg_no_pdf : str :=
  u "LibreOffice no gener" ++ 243%N :: u " archivo PDF".

Definition hint_poppler : str :=
  u "Instale poppler: brew install poppler (macOS) o apt install poppler-utils (Linux)".

Definition msg_convert_images (hint : str) : str :=
  u "Error al convertir PDF a im" ++ 225%N :: u "genes: " ++ hint.

Definition msg_timeout : str :=
  u "La extracci" ++ 243%N :: u "n de im" ++ 225%N
  :: u "genes ha tardado demasiado. Intente de nuevo.".

Section Extractor.

(** Page images, as [pdf2image] returns them. *)
Variable Image : Type.

(** [from pdf2image import convert_from_path]: raises [ImportError] where the
    package is not installed. *)
Variable import_pdf2image : OS -> Result unit.

(** The external converter: what running the command line [cmd] in directory
    [cwd] under the time limit [timeout] does.  It raises
    [subprocess.TimeoutExpired] when the limit is exceeded. *)
Variable run_process :
  list str -> option Z -> str -> OS -> Result CompletedProcess * OS.

(** The external rasterizer behind [convert_from_path(pdf, dpi, timeout)]. *)
Variable rasterize :
  str -> Z -> option Z -> OS -> Result (list Image) * OS.

(** The PNG rendering of an image in base64, that is
    [base64.b64encode(buf.getvalue()).decode('ascii')] after
    [img.save(buf, format='PNG')]. *)
Variable png_base64 : Image -> Result str.

(** [subprocess.run(cmd, capture_output=True, text=True, timeout=timeout,
    cwd=cwd)] *)
Definition subprocess_run (cmd : list str) (timeout : option Z) (cwd : str)
  : M CompletedProcess :=
  fun w =>
    let r := run_process cmd timeout cwd (os w) in
    (fst r,
     {| os := snd r; log := log w ++ [EvSubprocessRun cmd timeout cwd] |}).

(** [convert_from_path(pdf, dpi=dpi)]; [timeout] is the keyword argument of
    that name, [None] when the call leaves it out. *)
Definition convert_from_path (pdf : str) (dpi : Z) (timeout : option Z)
  : M (list Image) :=
  fun w =>
    let r := rasterize pdf dpi timeout (os w) in
    (fst r,
     {| os := snd r; log := log w ++ [EvConvertFromPath pdf dpi timeout] |}).

Definition lift {A} (r : Result A) : M A := fun w => (r, w).

(** The loop over [enumerate(images)], from index [i] on. *)
Fixpoint encode_slides (i : Z) (images : list Image) : M (list json) :=
  match images with
  | [] => ret []
  | img :: rest =>
      (* PNG bytes *)
      b64 <- lift (png_base64 img) ;;
      slides <- encode_slides (i + 1) rest ;;
      ret (JDict [(u "index", JInt i); (u "image_base64", JStr b64)] :: slides)
  end.

Definition main : M unit :=
  args <- read argv ;;
  when (List.length args <? 2)%nat
    (print (json_dumps (failure msg_missing_argument)) ;;
     sys_exit 1) ;;

  pptx_path <- read (fun o => abspath (getcwd o) (nth 1 args [])) ;;
  found <- read (fun o => path_exists o pptx_path) ;;
  when (negb found)
    (print (json_dumps (failure (msg_not_found pptx_path))) ;;
     sys_exit 1) ;;

  lo <- read find_libreoffice ;;
  match lo with
  | None =>
      print (json_dumps (failure msg_no_libreoffice)) ;;
      sys_exit 1
  | Some lo_exe =>
    try_except (w <- read import_pdf2image ;; lift w)
      [(isinstance (u "ImportError"),
        fun e => print (json_dumps (failure (msg_no_pdf2image e))) ;;
                 sys_exit 1)] ;;

    tmpdir <- tempfile_mkdtemp (u "dome_ppt_extract_") ;;
    try_finally
      (try_except
         ((* 1. Convert PPTX to PDF with LibreOffice *)
          let cmd :=
            [lo_exe; u "--headless"; u "--convert-to"; u "pdf";
             u "--outdir"; tmpdir; pptx_path] in
          proc <- subprocess_run cmd (Some EXTract_TIMEOUT) tmpdir ;;
          when (negb (returncode proc =? 0)%Z)
            (let err :=
               if negb (is_empty (proc_stderr proc)) then proc_stderr proc
               else if negb (is_empty (proc_stdout proc)) then proc_stdout proc
               else u "LibreOffice exit code " ++ str_of_int (returncode proc) in
             print (json_dumps (failure (msg_convert_pdf err))) ;;
             sys_exit 1) ;;

          (* Find the generated PDF (same base name as pptx) *)
          let pptx_name := path_stem pptx_path in
          let pdf_path := path_join tmpdir (pptx_name ++ u ".pdf") in
          is_file <- read (fun o => path_isfile o pdf_path) ;;
          pdf_path <-
            (if negb is_file then
               (* LibreOffice might use different naming *)
               pdfs <- read (fun o => glob_pdf o tmpdir) ;;
               match pdfs with
               | [] =>
                   print (json_dumps (failure msg_no_pdf)) ;;
                   sys_exit 1
               | first :: _ => ret first
               end
             else ret pdf_path) ;;

          (* 2. Convert PDF pages to PNG with pdf2image *)
          images <-
            try_except (convert_from_path pdf_path 150 None)
              [(isinstance (u "Exception"),
                fun e =>
                  let err_msg := lower (exc_text e) in
                  let hint :=
                    if contains err_msg (u "poppler")
                       || contains err_msg (u "pdftoppm")
                    then hint_poppler
                    else exc_text e in
                  print (json_dumps (failure (msg_convert_images hint))) ;;
                  sys_exit 1)] ;;

          (* 3. Encode each image as base64 *)
          slides <- encode_slides 0 images ;;

          print (json_dumps
                   (JDict [(u "success", JBool true);
                           (u "slides", JList slides)])))
         [(isinstance (u "TimeoutExpired"),
           fun _ => print (json_dumps (failure msg_timeout)) ;;
                    sys_exit 1);
          (isinstance (u "Exception"),
           fun e => print (json_dumps (failure (exc_text e))) ;;
                    sys_exit 1)])
      (shutil_rmtree tmpdir)
  end.

Definition invoke (o : OS) : Z * World :=
  let r := main (initial o) in (exit_status (fst r), snd r).

End Extractor.

Arguments convert_from_path {Image} rasterize pdf dpi timeout.
Arguments encode_slides {Image} png_base64 i images.
Arguments main {Image} import_pdf2image run_process rasterize png_base64.
Arguments invoke {Image} import_pdf2image run_process rasterize png_base64 o.

(** *** Observations on the external calls *)

Definition is_timeout (limit : Z) (timeout : option Z) : bool :=
  match timeout with
  | Some t => (t =? limit)%Z
  | None => false
  end.

(** Every call of the converter and of the rasterizer in the log carries
    the time limit. *)
Definition bounded_call (ev : Event) : bool :=
  match ev with
  | EvSubprocessRun _ timeout _ => is_timeout EXTract_TIMEOUT timeout
  | EvConvertFromPath _ _ timeout => is_timeout EXTract_TIMEOUT timeout
  | _ => true
  end.

(** What the calls in the log do carry: the converter the time limit, the
    rasterizer a resolution of 150 dpi and no time limit. *)
Definition call_as_written (ev : Event) : bool :=
  match ev with
  | EvSubprocessRun _ timeout _ => is_timeout EXTract_TIMEOUT timeout
  | EvConvertFromPath _ dpi timeout =>
      (dpi =? 150)%Z && match timeout with None => true | Some _ => false end
  | _ => true
  end.

(** The events between the creation of the temporary directory and its
    removal. *)
Definition body_event (ev : Event) : bool :=
  match ev with
  | EvPrint _ | EvSubprocessRun _ _ _ | EvConvertFromPath _ _ _ => true
  | _ => false
  end.

(** [m] creates no temporary directory and prints at most, or it creates
    one, runs the converter and the rasterizer, prints, and removes the
    directory with all it holds as its last action. *)
Definition cleans_up {A} (m : M A) : Prop :=
  forall w,
    (exists delta,
       log (snd (m w)) = log w ++ delta /\ forallb print_event delta = true)
    \/ (exists dir delta,
          log (snd (m w)) = log w ++ EvMkdtemp dir :: delta ++ [EvRmtree dir]
          /\ forallb body_event delta = true
          /\ forall q, inside dir q = true ->
                       fs_lookup (fs (os (snd (m w)))) q = None).

(** *** A sample host with LibreOffice and poppler installed *)

Definition sample_host : OS :=
  {| argv := [u "extract_ppt_images.py"; u "deck.pptx"];
     stdin := Ok [];
     cwd_tail := u "home/user";
     environ := [(u "HOME", u "/home/user")];
     fs := [(u "/home/user", Directory);
            (u "/home/user/deck.pptx", RegularFile);
            (u "/tmp", Directory)];
     stdout := [];
     tmp_root := u "/tmp";
     tmp_suffix := u "q7w2e_r5";
     platform := u "linux";
     path_cmds := [u "soffice"; u "pdftoppm"] |}.

Definition sample_import (o : OS) : Result unit := Ok tt.

(** LibreOffice writes [deck.pdf] into the directory given after
    [--outdir]. *)
Definition sample_soffice (cmd : list str) (timeout : option Z) (cwd : str)
    (o : OS) : Result CompletedProcess * OS :=
  (Ok {| returncode := 0;
         proc_stdout := u "convert deck.pptx as a Impress document";
         proc_stderr := [] |},
   set_fs ((path_join (nth 5 cmd []) (u "deck.pdf"), RegularFile) :: fs o) o).

(** A deck of two slides; the pages are numbered. *)
Definition sample_rasterize (pdf : str) (dpi : Z) (timeout : option Z)
    (o : OS) : Result (list nat) * OS :=
  (Ok [1%nat; 2%nat], o).

Definition sample_png_base64 (page : nat) : Result str :=
  Ok (u "iVBORw0KGgo=").

Definition sample_run : Z * World :=
  invoke sample_import sample_soffice sample_rasterize sample_png_base64
         sample_host.

End ExtractPptImages.

(** * Properties *)

(** ** Facts about strings *)

Lemma str_eqb_eq (a b : str) : str_eqb a b = true <-> a = b.
Proof.
  revert b; induction a as [|x a IH]; intros [|y b]; simpl; split; intro H;
    try discriminate; try reflexivity.
  - apply andb_true_iff in H as [Hx Hab].
    apply N.eqb_eq in Hx. apply IH in Hab. congruence.
  - injection H as -> ->. rewrite N.eqb_refl. simpl. now apply IH.
Qed.

Lemma str_eqb_refl (a : str) : str_eqb a a = true.
Proof. now apply str_eqb_eq. Qed.

Lemma startswith_cons (s : str) (c : char) (m : str) :
  startswith s (c :: m) = true -> exists t, s = c :: t /\ startswith t m = true.
Proof.
  destruct s as [|x t]; simpl; [discriminate|].
  intro H. apply andb_true_iff in H as [Hx Ht].
  apply N.eqb_eq in Hx. subst. now exists t.
Qed.

Lemma lstrip_head (s : str) :
  lstrip s = [] \/ exists c t, lstrip s = c :: t /\ isspace c = false.
Proof.
  induction s as [|c s IH]; simpl; [now left|].
  destruct (isspace c) eqn:E; [exact IH|].
  right. now exists c, s.
Qed.

Lemma lstrip_nil_iff (s : str) : lstrip s = [] <-> forallb isspace s = true.
Proof.
  induction s as [|c s IH]; simpl; [tauto|].
  destruct (isspace c); simpl; [exact IH|].
  split; discriminate.
Qed.

Lemma forallb_rev {A} (f : A -> bool) (l : list A) :
  forallb f (rev l) = forallb f l.
Proof.
  induction l as [|x l IH]; simpl; [reflexivity|].
  rewrite forallb_app, IH. simpl. rewrite andb_true_r. apply andb_comm.
Qed.

Lemma rstrip_nil_iff (s : str) : rstrip s = [] <-> forallb isspace s = true.
Proof.
  unfold rstrip. rewrite <- (forallb_rev isspace s), <- lstrip_nil_iff.
  split; intro H.
  - apply (f_equal (@rev char)) in H. now rewrite rev_involutive in H.
  - now rewrite H.
Qed.

(** [s.strip()] is empty exactly when every character of [s] is
    whitespace. *)
Lemma strip_nil_iff (s : str) : strip s = [] <-> forallb isspace s = true.
Proof.
  unfold strip. rewrite rstrip_nil_iff. split; intro H.
  - destruct (lstrip_head s) as [E | (c & t & E & Hc)].
    + now apply lstrip_nil_iff.
    + rewrite E in H. simpl in H. rewrite Hc in H. discriminate.
  - apply lstrip_nil_iff in H. now rewrite H.
Qed.

Lemma is_empty_true (s : str) : is_empty s = true <-> s = [].
Proof. destruct s; simpl; split; congruence. Qed.

(** A script that starts, after its leading whitespace, with a marker is not
    blank. *)
Lemma marker_not_blank (s : str) :
  existsb (startswith (lstrip s)) RunPptScript.js_markers = true ->
  is_empty (strip s) = false.
Proof.
  intro H.
  destruct (is_empty (strip s)) eqn:E; [|reflexivity].
  apply is_empty_true in E. unfold strip in E. apply rstrip_nil_iff in E.
  destruct (lstrip_head s) as [E0 | (c & t & E0 & Hc)].
  - rewrite E0 in H. discriminate H.
  - rewrite E0 in E. simpl in E. rewrite Hc in E. discriminate.
Qed.
(** ** Facts about [json.dumps] *)

Lemma printableb_spec (c : char) : printableb c = true <-> printable c.
Proof.
  unfold printableb, printable.
  rewrite andb_true_iff, !N.leb_le. tauto.
Qed.

Lemma printable_forallb (s : str) :
  forallb printableb s = true -> Forall printable s.
Proof.
  intro H. apply Forall_forall. intros c Hc.
  apply printableb_spec. rewrite forallb_forall in H. now apply H.
Qed.

Lemma printable_not_nl (s : str) : Forall printable s -> ~ In nl s.
Proof.
  intros H Hin. rewrite Forall_forall in H. apply H in Hin.
  unfold printable, nl in Hin. lia.
Qed.

Lemma hex_digit_printable (n : N) : (n < 16)%N -> printable (hex_digit n).
Proof.
  intro H. unfold hex_digit, printable.
  destruct (N.ltb_spec n 10); lia.
Qed.

Lemma hex4_printable (n : N) : Forall printable (hex4 n).
Proof.
  unfold hex4.
  repeat constructor; apply hex_digit_printable; now apply N.mod_lt.
Qed.

Lemma escape_char_printable (c : char) : Forall printable (escape_char c).
Proof.
  unfold escape_char.
  repeat match goal with
         | |- context [if ?b then _ else _] => destruct b eqn:?
         end;
    try (apply printable_forallb; reflexivity).
  - constructor; [|constructor]. now apply printableb_spec.
  - constructor; [unfold printable, bsl; lia|].
    apply Forall_app; split; [apply printable_forallb; reflexivity|].
    apply hex4_printable.
  - constructor; [unfold printable, bsl; lia|].
    apply Forall_app; split; [apply printable_forallb; reflexivity|].
    apply Forall_app; split; [apply hex4_printable|].
    constructor; [unfold printable, bsl; lia|].
    apply Forall_app; split; [apply printable_forallb; reflexivity|].
    apply hex4_printable.
Qed.

Lemma json_quote_printable (s : str) : Forall printable (json_quote s).
Proof.
  unfold json_quote. constructor; [unfold printable, dq; lia|].
  apply Forall_app; split.
  - induction s as [|c s IH]; simpl; [constructor|].
    apply Forall_app; split; [apply escape_char_printable | exact IH].
  - constructor; [unfold printable, dq; lia | constructor].
Qed.

(** Every result record of the runner is rendered as printable ASCII: the
    text holds no line break of any kind. *)
Lemma failure_printable (message : str) :
  Forall printable (json_dumps (RunPptScript.failure message)).
Proof.
  unfold RunPptScript.failure. cbn [json_dumps map join].
  repeat (apply Forall_app; split);
    try apply json_quote_printable;
    apply printable_forallb; reflexivity.
Qed.

Lemma success_printable :
  Forall printable (json_dumps RunPptScript.success).
Proof. apply printable_forallb. reflexivity. Qed.

(** ** Facts about paths and the file system *)

Lemma isabs_cons (p : str) : isabs p = true <-> exists t, p = slash :: t.
Proof.
  unfold isabs. split.
  - intro H. apply startswith_cons in H as (t & -> & _). now exists t.
  - intros (t & ->). reflexivity.
Qed.

Lemma isabs_tl (p : str) : isabs p = true -> slash :: tl p = p.
Proof. intro H. apply isabs_cons in H as (t & ->). reflexivity. Qed.

Lemma normpath_isabs (p : str) : isabs p = true -> isabs (normpath p) = true.
Proof.
  intro H. apply isabs_cons in H as (t & ->).
  unfold normpath. cbn [is_empty].
  replace (startswith (slash :: t) [slash]) with true by reflexivity.
  destruct (startswith (slash :: t) [slash; slash]
            && negb (startswith (slash :: t) [slash; slash; slash]));
    reflexivity.
Qed.

Lemma path_join_isabs (a b : str) : isabs a = true -> isabs (path_join a b) = true.
Proof.
  intro H. unfold path_join.
  destruct (startswith b [slash]) eqn:Eb; [exact Eb|].
  apply isabs_cons in H as (t & ->).
  destruct (is_empty (slash :: t) || endswith (slash :: t) [slash]); reflexivity.
Qed.

Lemma getcwd_isabs (o : OS) : isabs (getcwd o) = true.
Proof. reflexivity. Qed.

(** [os.path.abspath] always returns an absolute path. *)
Lemma abspath_isabs (o : OS) (p : str) : isabs (abspath (getcwd o) p) = true.
Proof.
  unfold abspath. destruct (isabs p) eqn:E.
  - now apply normpath_isabs.
  - apply normpath_isabs, path_join_isabs, getcwd_isabs.
Qed.

(** An absolute path is resolved to itself, whatever the working
    directory. *)
Lemma resolve_isabs (o : OS) (p : str) : isabs p = true -> resolve o p = p.
Proof. intro H. unfold resolve, path_join. unfold isabs in H. now rewrite H. Qed.

Lemma fs_lookup_remove_tree (d : str) (f : list (str * file_kind)) (p : str) :
  fs_lookup (remove_tree d f) p =
  if inside d p then None else fs_lookup f p.
Proof.
  induction f as [|[q k] f IH]; simpl.
  - now destruct (inside d p).
  - destruct (inside d q) eqn:Eq; simpl.
    + rewrite IH. destruct (str_eqb q p) eqn:E; [|reflexivity].
      apply str_eqb_eq in E. subst. now rewrite Eq.
    + rewrite IH. destruct (str_eqb q p) eqn:E; [|reflexivity].
      apply str_eqb_eq in E. subst. now rewrite Eq.
Qed.

Lemma inside_refl (d : str) : inside d d = true.
Proof. unfold inside. now rewrite str_eqb_refl. Qed.
(** ** Symbolic execution of the runner *)

Arguments abspath : simpl never.
Arguments resolve : simpl never.
Arguments path_join : simpl never.
Arguments json_dumps : simpl never.
Arguments env_set : simpl never.
Arguments remove_tree : simpl never.
Arguments u : simpl never.
Arguments strip : simpl never.
Arguments lstrip : simpl never.
Arguments isinstance : simpl never.
Arguments path_exists : simpl never.
Arguments path_isfile : simpl never.
Arguments existsb : simpl never.
Arguments exit_status : simpl never.

Lemma getcwd_set_environ e o : getcwd (set_environ e o) = getcwd o.
Proof. reflexivity. Qed.
Lemma getcwd_set_fs f o : getcwd (set_fs f o) = getcwd o.
Proof. reflexivity. Qed.
Lemma getcwd_set_stdout s o : getcwd (set_stdout s o) = getcwd o.
Proof. reflexivity. Qed.
Lemma getcwd_set_cwd_tail t o : getcwd (set_cwd_tail t o) = slash :: t.
Proof. reflexivity. Qed.
Lemma resolve_abspath o o' p :
  resolve o (abspath (getcwd o') p) = abspath (getcwd o') p.
Proof. apply resolve_isabs, abspath_isabs. Qed.
Lemma resolve_getcwd o o' : resolve o (getcwd o') = getcwd o'.
Proof. now apply resolve_isabs. Qed.
Lemma tl_getcwd o : tl (getcwd o) = cwd_tail o.
Proof. reflexivity. Qed.

Create Rewrite HintDb os_rw.
#[local] Hint Rewrite getcwd_set_environ getcwd_set_fs getcwd_set_stdout
  getcwd_set_cwd_tail resolve_abspath resolve_getcwd tl_getcwd : os_rw.

Ltac run :=
  cbn [bind ret read when try_except try_finally effect print raise
       sys_exit os_environ_set stdin_read_decode tempfile_mkdtemp os_chdir
       shutil_rmtree find_handler initial os log fst snd
       set_environ set_fs set_cwd_tail set_stdout
       argv stdin cwd_tail environ fs stdout tmp_root tmp_suffix platform
       path_cmds app];
  autorewrite with os_rw.

Section RunnerFacts.

Import RunPptScript.

Variable interp : str -> str -> list (str * py_value) -> OS -> Result unit * OS.

Lemma main_missing_argument (o : OS) :
  (List.length (argv o) <? 2)%nat = true ->
  main interp (initial o) =
  (Raised (SystemExit 1),
   {| os := printed (json_dumps (failure msg_missing_argument)) o;
      log := [EvPrint (json_dumps (failure msg_missing_argument))] |}).
Proof. intro Hargs. unfold main. run. rewrite Hargs. reflexivity. Qed.

Lemma main_reads_stdin (o : OS) (k : str -> M unit) (w : World) :
  os w = exposed o ->
  bind (try_except stdin_read_decode
          [(isinstance (u "Exception"),
            fun e => print (json_dumps (failure (msg_stdin e))) ;; sys_exit 1)])
       k w =
  match stdin o with
  | Ok code => k code w
  | Raised e =>
      if isinstance (u "Exception") e then
        (Raised (SystemExit 1),
         {| os := printed (json_dumps (failure (msg_stdin e))) (exposed o);
            log := log w ++ [EvPrint (json_dumps (failure (msg_stdin e)))] |})
      else (Raised e, w)
  end.
Proof.
  intro Hw. unfold bind at 1, try_except, stdin_read_decode.
  rewrite Hw. unfold exposed at 1. cbn [stdin set_environ].
  destruct (stdin o) as [code|e]; [reflexivity|].
  cbn [find_handler]. destruct (isinstance (u "Exception") e); [|reflexivity].
  run. rewrite Hw. reflexivity.
Qed.

Lemma main_stdin_failure (o : OS) (e : exn) :
  (List.length (argv o) <? 2)%nat = false ->
  stdin o = Raised e ->
  isinstance (u "Exception") e = true ->
  main interp (initial o) =
  (Raised (SystemExit 1),
   {| os := printed (json_dumps (failure (msg_stdin e))) (exposed o);
      log := [EvSetenv (u "PPTX_OUTPUT_PATH") (output_path_of o);
              EvPrint (json_dumps (failure (msg_stdin e)))] |}).
Proof.
  intros Hargs Hin He. unfold main. run. rewrite Hargs. run.
  rewrite (main_reads_stdin o) by reflexivity. rewrite Hin, He. reflexivity.
Qed.

Lemma main_stdin_escapes (o : OS) (e : exn) :
  (List.length (argv o) <? 2)%nat = false ->
  stdin o = Raised e ->
  isinstance (u "Exception") e = false ->
  main interp (initial o) =
  (Raised e,
   {| os := exposed o;
      log := [EvSetenv (u "PPTX_OUTPUT_PATH") (output_path_of o)] |}).
Proof.
  intros Hargs Hin He. unfold main. run. rewrite Hargs. run.
  rewrite (main_reads_stdin o) by reflexivity. rewrite Hin, He. reflexivity.
Qed.

Lemma main_empty (o : OS) (code : str) :
  (List.length (argv o) <? 2)%nat = false ->
  stdin o = Ok code ->
  is_empty (strip code) = true ->
  main interp (initial o) =
  (Raised (SystemExit 1),
   {| os := printed (json_dumps (failure msg_empty)) (exposed o);
      log := [EvSetenv (u "PPTX_OUTPUT_PATH") (output_path_of o);
              EvPrint (json_dumps (failure msg_empty))] |}).
Proof.
  intros Hargs Hin Hblank. unfold main. run. rewrite Hargs. run.
  rewrite (main_reads_stdin o) by reflexivity. rewrite Hin. run.
  rewrite Hblank. reflexivity.
Qed.

Lemma main_wrong_language (o : OS) (code : str) :
  (List.length (argv o) <? 2)%nat = false ->
  stdin o = Ok code ->
  existsb (startswith (lstrip code)) js_markers = true ->
  main interp (initial o) =
  (Raised (SystemExit 1),
   {| os := printed (json_dumps (failure msg_wrong_language)) (exposed o);
      log := [EvSetenv (u "PPTX_OUTPUT_PATH") (output_path_of o);
              EvPrint (json_dumps (failure msg_wrong_language))] |}).
Proof.
  intros Hargs Hin Hjs. unfold main. run. rewrite Hargs. run.
  rewrite (main_reads_stdin o) by reflexivity. rewrite Hin. run.
  rewrite (marker_not_blank _ Hjs). run. rewrite Hjs. reflexivity.
Qed.

Lemma main_executes (o : OS) (code : str) :
  (List.length (argv o) <? 2)%nat = false ->
  stdin o = Ok code ->
  is_empty (strip code) = false ->
  existsb (startswith (lstrip code)) js_markers = false ->
  main interp (initial o) = executed interp o code.
Proof.
  intros Hargs Hin Hblank Hjs.
  unfold main. run. rewrite Hargs. run.
  rewrite (main_reads_stdin o) by reflexivity. rewrite Hin. run.
  rewrite Hblank. run. rewrite Hjs. run.
  unfold bind at 1, try_finally at 1, bind at 1, try_except at 1, py_exec. run.
  unfold executed, verified, script_run, exec_event, script_run, setup_events,
    teardown_events, torn_down, printed, sandboxed, exposed, sandbox_of,
    output_path_of, namespace, py_exec.
  set (o1 := set_cwd_tail _ _).
  destruct (interp code (u "<ppt_script>") _ o1) as [r o2]. run.
  destruct r as [[]|e]; run.
  - destruct (path_exists _ _); run; reflexivity.
  - destruct (isinstance (u "SystemExit") e); run.
    + destruct (path_exists _ _); run; reflexivity.
    + destruct (isinstance (u "Exception") e); run; reflexivity.
Qed.


Lemma env_get_set (key value : str) (env : list (str * str)) :
  env_get (env_set key value env) key = Some value.
Proof. unfold env_set. simpl. now rewrite str_eqb_refl. Qed.

Lemma getcwd_sandboxed (o : OS) : getcwd (sandboxed o) = sandbox_of o.
Proof.
  unfold sandboxed. rewrite getcwd_set_cwd_tail.
  apply isabs_tl, abspath_isabs.
Qed.

Lemma output_path_exposed (o : OS) :
  env_get (environ (sandboxed o)) (u "PPTX_OUTPUT_PATH")
  = Some (output_path_of o).
Proof. unfold sandboxed, exposed. cbn [environ set_cwd_tail set_fs set_environ]. apply env_get_set. Qed.

Lemma path_exists_abs (o : OS) (p : str) :
  isabs p = true ->
  path_exists o p = match fs_lookup (fs o) p with Some _ => true | None => false end.
Proof. intro H. unfold path_exists. now rewrite resolve_isabs. Qed.

(** What exists after the teardown: what the script left, outside the
    sandbox directory. *)
Lemma path_exists_torn_down (o o2 : OS) (p : str) :
  isabs p = true ->
  path_exists (torn_down o o2) p
  = negb (inside (sandbox_of o) p) && path_exists o2 p.
Proof.
  intro H. rewrite !path_exists_abs by exact H.
  unfold torn_down. cbn [fs set_fs]. rewrite fs_lookup_remove_tree.
  now destruct (inside (sandbox_of o) p).
Qed.

Lemma path_exists_printed (text : str) (o : OS) (p : str) :
  path_exists (printed text o) p = path_exists o p.
Proof. reflexivity. Qed.

Lemma output_path_isabs (o : OS) : isabs (output_path_of o) = true.
Proof. apply abspath_isabs. Qed.


(** A script execution is logged only by an invocation that passes the
    validation of its input, and then with the sandbox as the environment
    the script starts in. *)
Lemma exec_logged (o : OS) (code : str) (o1 : OS) (r : Result unit) (o2 : OS) :
  In (EvExec code o1 r o2) (log (snd (main interp (initial o)))) ->
  main interp (initial o) = executed interp o code
  /\ o1 = sandboxed o
  /\ r = fst (script_run interp o code)
  /\ o2 = snd (script_run interp o code).
Proof.
  intro H.
  destruct (List.length (argv o) <? 2)%nat eqn:Hargs.
  { rewrite main_missing_argument in H by exact Hargs.
    simpl in H. intuition discriminate. }
  destruct (stdin o) as [script|e] eqn:Hin.
  2:{ destruct (isinstance (u "Exception") e) eqn:He.
      - rewrite (main_stdin_failure o e Hargs Hin He) in H.
        simpl in H. intuition discriminate.
      - rewrite (main_stdin_escapes o e Hargs Hin He) in H.
        simpl in H. intuition discriminate. }
  destruct (is_empty (strip script)) eqn:Hblank.
  { rewrite (main_empty o script Hargs Hin Hblank) in H.
    simpl in H. intuition discriminate. }
  destruct (existsb (startswith (lstrip script)) js_markers) eqn:Hjs.
  { rewrite (main_wrong_language o script Hargs Hin Hjs) in H.
    simpl in H. intuition discriminate. }
  rewrite (main_executes o script Hargs Hin Hblank Hjs) in H |- *.
  assert (Hev : EvExec code o1 r o2 = exec_event interp o script).
  { unfold executed, verified in H.
    repeat match type of H with
           | context [match ?x with _ => _ end] => destruct x
           end;
      cbn [log snd setup_events teardown_events app In] in H;
      repeat match type of H with
             | _ \/ _ => destruct H as [H | H]
             | False => contradiction
             end;
      try discriminate H; now symmetry. }
  unfold exec_event in Hev. injection Hev as -> -> -> ->. auto.
Qed.


Lemma executed_clean (o : OS) (code : str) :
  clean (fst (script_run interp o code)) = true ->
  executed interp o code
  = verified interp o code (snd (script_run interp o code)).
Proof.
  unfold executed, clean.
  destruct (fst (script_run interp o code)) as [[]|e]; [reflexivity|].
  now intros ->.
Qed.

Lemma executed_runtime_failure (o : OS) (code : str) (e : exn) :
  fst (script_run interp o code) = Raised e ->
  isinstance (u "SystemExit") e = false ->
  isinstance (u "Exception") e = true ->
  executed interp o code
  = (Raised (SystemExit 1),
     {| os := torn_down o
                (printed (json_dumps (failure (msg_runtime e)))
                         (snd (script_run interp o code)));
        log := setup_events o
               ++ [exec_event interp o code;
                   EvPrint (json_dumps (failure (msg_runtime e)))]
               ++ teardown_events o |}).
Proof. intros Hr Hexit Herr. unfold executed. now rewrite Hr, Hexit, Herr. Qed.

Lemma executed_escape (o : OS) (code : str) (e : exn) :
  fst (script_run interp o code) = Raised e ->
  isinstance (u "SystemExit") e = false ->
  isinstance (u "Exception") e = false ->
  executed interp o code
  = (Raised e,
     {| os := torn_down o (snd (script_run interp o code));
        log := setup_events o ++ [exec_event interp o code]
               ++ teardown_events o |}).
Proof. intros Hr Hexit Herr. unfold executed. now rewrite Hr, Hexit, Herr. Qed.

Lemma verified_present (o : OS) (code : str) (o2 : OS) :
  path_exists o2 (output_path_of o) = true ->
  inside (sandbox_of o) (output_path_of o) = false ->
  verified interp o code o2
  = (Ok tt,
     {| os := printed (json_dumps success) (torn_down o o2);
        log := (setup_events o ++ [exec_event interp o code]
                ++ teardown_events o)
               ++ [EvPrint (json_dumps success)] |}).
Proof.
  intros Hp Hout. unfold verified.
  rewrite path_exists_torn_down by apply output_path_isabs.
  now rewrite Hp, Hout.
Qed.

Lemma verified_absent (o : OS) (code : str) (o2 : OS) :
  path_exists o2 (output_path_of o) = false ->
  verified interp o code o2
  = (Raised (SystemExit 1),
     {| os := printed (json_dumps (failure msg_no_artifact)) (torn_down o o2);
        log := (setup_events o ++ [exec_event interp o code]
                ++ teardown_events o)
               ++ [EvPrint (json_dumps (failure msg_no_artifact))] |}).
Proof.
  intros Hp. unfold verified.
  rewrite path_exists_torn_down by apply output_path_isabs.
  rewrite Hp, andb_false_r. reflexivity.
Qed.

Lemma exit_status_exit (code : Z) : exit_status (Raised (SystemExit code)) = code.
Proof. reflexivity. Qed.

(** C1: a script that is executed, ends without an error and leaves a file
    at the path exposed in [PPTX_OUTPUT_PATH] makes the invocation report
    success with status 0, and the file is there afterwards, whatever the
    script did to the working directory; the exposed path is the absolute
    path the argument resolved to before the sandbox was entered.  (The
    random name of the sandbox directory is taken not to lie on the output
    path.) *)
Theorem saved_artifact_reports_success
    (o : OS) (code : str) (o1 : OS) (r : Result unit) (o2 : OS) (p : str) :
  In (EvExec code o1 r o2) (log (snd (invoke interp o))) ->
  clean r = true ->
  env_get (environ o1) (u "PPTX_OUTPUT_PATH") = Some p ->
  path_exists o2 p = true ->
  inside (getcwd o1) p = false ->
  fst (invoke interp o) = 0%Z
  /\ reports (log (snd (invoke interp o))) = [json_dumps success]
  /\ stdout (os (snd (invoke interp o)))
     = stdout o2 ++ json_dumps success ++ [nl]
  /\ path_exists (os (snd (invoke interp o))) p = true
  /\ p = abspath (getcwd o) (nth 1 (argv o) [])
  /\ isabs p = true.
Proof.
  unfold invoke. cbn [fst snd]. intros Hev Hclean Henv Hsaved Hout.
  destruct (exec_logged o code o1 r o2 Hev) as (Hmain & -> & -> & ->).
  rewrite output_path_exposed in Henv. injection Henv as <-.
  rewrite getcwd_sandboxed in Hout.
  rewrite Hmain, (executed_clean o code Hclean),
    (verified_present o code _ Hsaved Hout).
  cbn [fst snd os log]. repeat split.
  - rewrite path_exists_printed, path_exists_torn_down
      by apply output_path_isabs.
    now rewrite Hsaved, Hout.
  - apply output_path_isabs.
Qed.

(** C2: whenever the script is executed, however it ends, the working
    directory is afterwards the one the invocation started in, nothing is
    left at or below the sandbox directory, and after the execution the
    directory is changed exactly once, back to the original one, and a tree
    is removed exactly once, the sandbox. *)
Theorem teardown_runs_exactly_once
    (o : OS) (code : str) (o1 : OS) (r : Result unit) (o2 : OS) :
  In (EvExec code o1 r o2) (log (snd (invoke interp o))) ->
  getcwd (os (snd (invoke interp o))) = getcwd o
  /\ path_exists (os (snd (invoke interp o))) (getcwd o1) = false
  /\ (forall q, inside (getcwd o1) q = true ->
                fs_lookup (fs (os (snd (invoke interp o)))) q = None)
  /\ exists before after,
       log (snd (invoke interp o)) = before ++ EvExec code o1 r o2 :: after
       /\ In (EvMkdtemp (getcwd o1)) before
       /\ dir_events before = [EvChdir (getcwd o1)]
       /\ dir_events after = [EvChdir (getcwd o); EvRmtree (getcwd o1)].
Proof.
  unfold invoke. cbn [fst snd]. intros Hev.
  destruct (exec_logged o code o1 r o2 Hev) as (Hmain & -> & -> & ->).
  rewrite Hmain, getcwd_sandboxed. clear Hev Hmain.
  assert (Hgone : forall o', forall q, inside (sandbox_of o) q = true ->
            fs_lookup (fs (torn_down o o')) q = None).
  { intros o' q Hq. unfold torn_down. cbn [fs set_fs].
    now rewrite fs_lookup_remove_tree, Hq. }
  assert (Hgone' : forall o', path_exists (torn_down o o') (sandbox_of o) = false).
  { intro o'. rewrite path_exists_abs by apply abspath_isabs.
    now rewrite Hgone by apply inside_refl. }
  unfold executed, verified, exec_event.
  destruct (fst (script_run interp o code)) as [[]|e];
    repeat match goal with
           | |- context [if ?b then _ else _] => destruct b
           end;
    cbn [fst snd os log];
    (split; [reflexivity|]); (split; [apply Hgone'|]);
    (split; [apply Hgone|]);
    exists (setup_events o); eexists; (split; [reflexivity|]);
    cbn; auto.
Qed.

(** C3: a script that is executed and ends without a classified failure,
    leaving no file at the exposed output path, makes the invocation report
    [NoArtifactProduced] with status 1; after every such execution the
    status is decided by whether the file exists. *)
Theorem missing_artifact_reported
    (o : OS) (code : str) (o1 : OS) (r : Result unit) (o2 : OS) (p : str) :
  In (EvExec code o1 r o2) (log (snd (invoke interp o))) ->
  clean r = true ->
  env_get (environ o1) (u "PPTX_OUTPUT_PATH") = Some p ->
  (path_exists o2 p = false ->
   fst (invoke interp o) = 1%Z
   /\ reports (log (snd (invoke interp o)))
      = [json_dumps (failure msg_no_artifact)]
   /\ stdout (os (snd (invoke interp o)))
      = stdout o2 ++ json_dumps (failure msg_no_artifact) ++ [nl])
  /\ fst (invoke interp o)
     = (if path_exists (os (snd (invoke interp o))) p then 0 else 1)%Z.
Proof.
  unfold invoke. cbn [fst snd]. intros Hev Hclean Henv.
  destruct (exec_logged o code o1 r o2 Hev) as (Hmain & -> & -> & ->).
  rewrite output_path_exposed in Henv. injection Henv as <-.
  rewrite Hmain, (executed_clean o code Hclean). split.
  - intro Habsent. rewrite (verified_absent o code _ Habsent).
    cbn [fst snd os log]. repeat split.
  - unfold verified.
    destruct (path_exists (torn_down o _) (output_path_of o)) eqn:E;
      cbn [fst snd os]; rewrite path_exists_printed, E; reflexivity.
Qed.

(** C4: a script that is executed and raises an error, an instance of
    [Exception] (which a [SystemExit] is not), makes the invocation report one
    failure whose message is the name of the error's class, its text and the
    traceback, joined into one text of several lines, with status 1; the
    script is executed once. *)
Theorem runtime_error_reported
    (o : OS) (code : str) (o1 : OS) (e : exn) (o2 : OS) :
  In (EvExec code o1 (Raised e) o2) (log (snd (invoke interp o))) ->
  isinstance (u "Exception") e = true ->
  isinstance (u "SystemExit") e = false ->
  fst (invoke interp o) = 1%Z
  /\ reports (log (snd (invoke interp o)))
     = [json_dumps
          (failure (exc_name e ++ u ": " ++ exc_text e ++ [nl]
                    ++ exc_traceback e))]
  /\ stdout (os (snd (invoke interp o)))
     = stdout o2
       ++ json_dumps
            (failure (exc_name e ++ u ": " ++ exc_text e ++ [nl]
                      ++ exc_traceback e))
       ++ [nl]
  /\ filter exec_event_b (log (snd (invoke interp o)))
     = [EvExec code o1 (Raised e) o2].
Proof.
  unfold invoke. cbn [fst snd]. intros Hev Herr Hexit.
  destruct (exec_logged o code o1 _ o2 Hev) as (Hmain & -> & Hr & ->).
  symmetry in Hr.
  rewrite Hmain, (executed_runtime_failure o code e Hr Hexit Herr).
  unfold exec_event. rewrite Hr. cbn [fst snd os log]. repeat split.
Qed.

(** C5, as amended: when the script is executed and does not end in a
    classified runtime failure, nothing is printed before the teardown is
    complete; when it ends in a classified runtime failure, the failure is
    printed first and the teardown follows, as the last thing before the
    process exits. *)
Theorem report_and_teardown_order
    (o : OS) (code : str) (o1 : OS) (r : Result unit) (o2 : OS) :
  In (EvExec code o1 r o2) (log (snd (invoke interp o))) ->
  (runtime_failure r = false ->
   reports_follow_teardown false (log (snd (invoke interp o))) = true)
  /\ (runtime_failure r = true ->
      exists e,
        r = Raised e
        /\ log (snd (invoke interp o))
           = [EvSetenv (u "PPTX_OUTPUT_PATH") (output_path_of o);
              EvMkdtemp (getcwd o1); EvChdir (getcwd o1);
              EvExec code o1 r o2;
              EvPrint (json_dumps (failure (msg_runtime e)));
              EvChdir (getcwd o); EvRmtree (getcwd o1)]).
Proof.
  unfold invoke. cbn [fst snd]. intros Hev.
  destruct (exec_logged o code o1 r o2 Hev) as (Hmain & -> & -> & ->).
  rewrite Hmain, getcwd_sandboxed. clear Hev Hmain.
  unfold executed, verified, exec_event, runtime_failure.
  destruct (fst (script_run interp o code)) as [[]|e];
    repeat match goal with
           | |- context [if ?b then _ else _] => destruct b
           end;
    cbn [fst snd os log negb andb]; split; intro H;
    try discriminate H; try reflexivity.
  exists e. split; reflexivity.
Qed.

(** C7: a script whose text, after its leading whitespace, starts with one of
    the markers is reported as written in the wrong language, with status 1,
    and is not executed: no sandbox is set up and the file system is left as
    it was. *)
Theorem foreign_script_rejected
    (o : OS) (prog out : str) (rest : list str) (code marker : str) :
  argv o = prog :: out :: rest ->
  stdin o = Ok code ->
  In marker js_markers ->
  startswith (lstrip code) marker = true ->
  fst (invoke interp o) = 1%Z
  /\ reports (log (snd (invoke interp o)))
     = [json_dumps (failure msg_wrong_language)]
  /\ existsb isolation_event (log (snd (invoke interp o))) = false
  /\ fs (os (snd (invoke interp o))) = fs o
  /\ getcwd (os (snd (invoke interp o))) = getcwd o.
Proof.
  intros Hargv Hin Hm Hstart.
  assert (Hargs : (List.length (argv o) <? 2)%nat = false)
    by now rewrite Hargv.
  assert (Hjs : existsb (startswith (lstrip code)) js_markers = true).
  { apply existsb_exists. now exists marker. }
  unfold invoke. rewrite (main_wrong_language o code Hargs Hin Hjs).
  repeat split.
Qed.

(** C8: a script that is empty or consists of whitespace only is reported as
    empty input, with status 1, before any isolation: no temporary directory
    is created, the working directory is not changed, and the script is not
    executed. *)
Theorem blank_script_rejected
    (o : OS) (prog out : str) (rest : list str) (code : str) :
  argv o = prog :: out :: rest ->
  stdin o = Ok code ->
  forallb isspace code = true ->
  fst (invoke interp o) = 1%Z
  /\ reports (log (snd (invoke interp o))) = [json_dumps (failure msg_empty)]
  /\ existsb isolation_event (log (snd (invoke interp o))) = false
  /\ fs (os (snd (invoke interp o))) = fs o
  /\ getcwd (os (snd (invoke interp o))) = getcwd o.
Proof.
  intros Hargv Hin Hblank.
  assert (Hargs : (List.length (argv o) <? 2)%nat = false)
    by now rewrite Hargv.
  assert (Hempty : is_empty (strip code) = true).
  { apply is_empty_true, strip_nil_iff, Hblank. }
  unfold invoke. rewrite (main_empty o code Hargs Hin Hempty).
  repeat split.
Qed.

(** C10: a [SystemExit] raised by the script is swallowed whatever its
    status: the invocation goes on to check for the artifact, reports
    [NoArtifactProduced] when the file is missing and success when it is
    there. *)
Theorem system_exit_counts_as_clean
    (o : OS) (code : str) (o1 : OS) (e : exn) (o2 : OS) (p : str) :
  In (EvExec code o1 (Raised e) o2) (log (snd (invoke interp o))) ->
  isinstance (u "SystemExit") e = true ->
  env_get (environ o1) (u "PPTX_OUTPUT_PATH") = Some p ->
  (path_exists o2 p = false ->
   fst (invoke interp o) = 1%Z
   /\ reports (log (snd (invoke interp o)))
      = [json_dumps (failure msg_no_artifact)])
  /\ (path_exists o2 p = true ->
      inside (getcwd o1) p = false ->
      fst (invoke interp o) = 0%Z
      /\ reports (log (snd (invoke interp o))) = [json_dumps success]).
Proof.
  unfold invoke. cbn [fst snd]. intros Hev Hexit Henv.
  destruct (exec_logged o code o1 _ o2 Hev) as (Hmain & -> & Hr & ->).
  rewrite output_path_exposed in Henv. injection Henv as <-.
  assert (Hclean : clean (fst (script_run interp o code)) = true)
    by now rewrite <- Hr.
  rewrite Hmain, (executed_clean o code Hclean). split.
  - intro Habsent. rewrite (verified_absent o code _ Habsent).
    cbn [fst snd os log]. repeat split.
  - intros Hsaved Hout. rewrite getcwd_sandboxed in Hout.
    rewrite (verified_present o code _ Hsaved Hout).
    cbn [fst snd os log]. repeat split.
Qed.

Lemma single_line_failure (message : str) (prior : str) (o' : OS) (before : list Event) (after : list Event) :
  reports before = [] -> reports after = [] ->
  stdout o' = prior ++ json_dumps (failure message) ++ [nl] ->
  single_result_line 1
    {| os := o';
       log := before ++ EvPrint (json_dumps (failure message)) :: after |}.
Proof.
  intros Hb Ha Hout. exists (json_dumps (failure message)).
  cbn [log os]. repeat split.
  - unfold reports in *. rewrite flat_map_app, Hb. cbn. now rewrite Ha.
  - apply printable_not_nl, failure_printable.
  - now exists prior.
  - right. now exists message.
Qed.

(** C6, as amended: an invocation prints exactly one result line, a single
    line that ends standard output, with status 0 for success and 1 for a
    failure, unless an exception that is not an instance of [Exception]
    escapes, raised while standard input is read or (other than a
    [SystemExit]) by the script: then nothing is printed and the process ends
    with the status of that exception. *)
Theorem one_result_line_or_escape (o : OS) :
  single_result_line (fst (invoke interp o)) (snd (invoke interp o))
  \/ (reports (log (snd (invoke interp o))) = []
      /\ exists e,
           isinstance (u "Exception") e = false
           /\ fst (invoke interp o) = exit_status (Raised e)
           /\ (stdin o = Raised e
               \/ (isinstance (u "SystemExit") e = false
                   /\ exists code o1 o2,
                        In (EvExec code o1 (Raised e) o2)
                           (log (snd (invoke interp o)))))).
Proof.
  unfold invoke. cbn [fst snd].
  destruct (List.length (argv o) <? 2)%nat eqn:Hargs.
  { left. rewrite (main_missing_argument o Hargs). cbn [fst snd].
    rewrite exit_status_exit.
    apply (single_line_failure _ (stdout o) _ [] []); reflexivity. }
  destruct (stdin o) as [code|e] eqn:Hin.
  2:{ destruct (isinstance (u "Exception") e) eqn:He.
      - left. rewrite (main_stdin_failure o e Hargs Hin He). cbn [fst snd].
        rewrite exit_status_exit.
        apply (single_line_failure _ (stdout o) _ [_] []); reflexivity.
      - right. rewrite (main_stdin_escapes o e Hargs Hin He). cbn [fst snd log].
        split; [reflexivity|]. exists e. auto. }
  destruct (is_empty (strip code)) eqn:Hblank.
  { left. rewrite (main_empty o code Hargs Hin Hblank). cbn [fst snd].
    rewrite exit_status_exit.
    apply (single_line_failure _ (stdout o) _ [_] []); reflexivity. }
  destruct (existsb (startswith (lstrip code)) js_markers) eqn:Hjs.
  { left. rewrite (main_wrong_language o code Hargs Hin Hjs). cbn [fst snd].
    rewrite exit_status_exit.
    apply (single_line_failure _ (stdout o) _ [_] []); reflexivity. }
  rewrite (main_executes o code Hargs Hin Hblank Hjs).
  assert (Hverified : forall o2,
            single_result_line (exit_status (fst (verified interp o code o2)))
                               (snd (verified interp o code o2))).
  { intro o2. unfold verified.
    destruct (path_exists (torn_down o o2) (output_path_of o));
      cbn [fst snd].
    - exists (json_dumps success). cbn [log os]. repeat split.
      + apply printable_not_nl, success_printable.
      + now exists (stdout o2).
      + now left.
    - rewrite exit_status_exit.
      apply (single_line_failure _ (stdout o2) _ (_ :: _ :: _ :: _ :: _ :: _ :: nil) []);
        reflexivity. }
  unfold executed.
  destruct (fst (script_run interp o code)) as [[]|e] eqn:Hr.
  - left. apply Hverified.
  - destruct (isinstance (u "SystemExit") e) eqn:Hexit.
    + left. apply Hverified.
    + destruct (isinstance (u "Exception") e) eqn:Herr; cbn [fst snd].
      * left. rewrite exit_status_exit.
        apply (single_line_failure _ (stdout (snd (script_run interp o code))) _
                 (_ :: _ :: _ :: _ :: nil) (_ :: _ :: nil));
          reflexivity.
      * right. cbn [log]. split; [reflexivity|].
        exists e. repeat split; [exact Herr|]. right. split; [exact Hexit|].
        exists code, (sandboxed o), (snd (script_run interp o code)).
        unfold exec_event. rewrite Hr. cbn. auto.
Qed.

End RunnerFacts.

(** ** The runner on the sample scripts *)

Section Samples.

Import RunPptScript.

#[local] Abbreviation run script := (invoke sample_python (sample_host script)).
#[local] Abbreviation start script := (sandboxed (sample_host script)).
#[local] Abbreviation stop script :=
  (snd (script_run sample_python (sample_host script) script)).
#[local] Abbreviation deck := (u "/home/user/out/deck.pptx").
#[local] Abbreviation sandbox := (u "/tmp/dome_ppt_sandbox_k3x9a_b2").

Ltac logged := vm_compute; do 3 right; left; reflexivity.
Ltac evaluated := vm_compute; reflexivity.

Lemma saved_artifact_reports_success_witness :
  fst (run script_save) = 0%Z
  /\ reports (log (snd (run script_save))) = [json_dumps success]
  /\ stdout (os (snd (run script_save)))
     = stdout (stop script_save) ++ json_dumps success ++ [nl]
  /\ path_exists (os (snd (run script_save))) deck = true
  /\ deck = abspath (getcwd (sample_host script_save))
                    (nth 1 (argv (sample_host script_save)) [])
  /\ isabs deck = true.
Proof.
  apply (saved_artifact_reports_success sample_python
           (sample_host script_save) script_save (start script_save)
           (Ok tt) (stop script_save) deck);
    [logged | evaluated | evaluated | evaluated | evaluated].
Defined.

Lemma teardown_runs_exactly_once_witness :
  getcwd (os (snd (run script_error))) = getcwd (sample_host script_error)
  /\ path_exists (os (snd (run script_error))) (getcwd (start script_error))
     = false
  /\ (forall q, inside (getcwd (start script_error)) q = true ->
                fs_lookup (fs (os (snd (run script_error)))) q = None)
  /\ exists before after,
       log (snd (run script_error))
       = before ++ EvExec script_error (start script_error)
                     (Raised value_error) (stop script_error) :: after
       /\ In (EvMkdtemp (getcwd (start script_error))) before
       /\ dir_events before = [EvChdir (getcwd (start script_error))]
       /\ dir_events after
          = [EvChdir (getcwd (sample_host script_error));
             EvRmtree (getcwd (start script_error))].
Proof.
  apply (teardown_runs_exactly_once sample_python
           (sample_host script_error) script_error (start script_error)
           (Raised value_error) (stop script_error)).
  logged.
Defined.

Lemma missing_artifact_reported_witness :
  (path_exists (stop script_hello) deck = false ->
   fst (run script_hello) = 1%Z
   /\ reports (log (snd (run script_hello)))
      = [json_dumps (failure msg_no_artifact)]
   /\ stdout (os (snd (run script_hello)))
      = stdout (stop script_hello)
        ++ json_dumps (failure msg_no_artifact) ++ [nl])
  /\ fst (run script_hello)
     = (if path_exists (os (snd (run script_hello))) deck then 0 else 1)%Z.
Proof.
  apply (missing_artifact_reported sample_python
           (sample_host script_hello) script_hello (start script_hello)
           (Ok tt) (stop script_hello) deck);
    [logged | evaluated | evaluated].
Defined.

Lemma runtime_error_reported_witness :
  fst (run script_error) = 1%Z
  /\ reports (log (snd (run script_error)))
     = [json_dumps
          (failure (u "ValueError" ++ u ": " ++ u "boom" ++ [nl]
                    ++ traceback_of (u "ValueError: boom")))]
  /\ stdout (os (snd (run script_error)))
     = stdout (stop script_error)
       ++ json_dumps
            (failure (u "ValueError" ++ u ": " ++ u "boom" ++ [nl]
                      ++ traceback_of (u "ValueError: boom")))
       ++ [nl]
  /\ filter exec_event_b (log (snd (run script_error)))
     = [EvExec script_error (start script_error) (Raised value_error)
               (stop script_error)].
Proof.
  apply (runtime_error_reported sample_python
           (sample_host script_error) script_error (start script_error)
           value_error (stop script_error));
    [logged | evaluated | evaluated].
Defined.

Lemma report_and_teardown_order_witness :
  (runtime_failure (Raised value_error) = false ->
   reports_follow_teardown false (log (snd (run script_error))) = true)
  /\ (runtime_failure (Raised value_error) = true ->
      exists e,
        @Raised unit value_error = Raised e
        /\ log (snd (run script_error))
           = [EvSetenv (u "PPTX_OUTPUT_PATH")
                       (output_path_of (sample_host script_error));
              EvMkdtemp (getcwd (start script_error));
              EvChdir (getcwd (start script_error));
              EvExec script_error (start script_error) (Raised value_error)
                     (stop script_error);
              EvPrint (json_dumps (failure (msg_runtime e)));
              EvChdir (getcwd (sample_host script_error));
              EvRmtree (getcwd (start script_error))]).
Proof.
  apply (report_and_teardown_order sample_python
           (sample_host script_error) script_error (start script_error)
           (Raised value_error) (stop script_error)).
  logged.
Defined.

Lemma foreign_script_rejected_witness :
  fst (run script_js) = 1%Z
  /\ reports (log (snd (run script_js)))
     = [json_dumps (failure msg_wrong_language)]
  /\ existsb isolation_event (log (snd (run script_js))) = false
  /\ fs (os (snd (run script_js))) = fs (sample_host script_js)
  /\ getcwd (os (snd (run script_js))) = getcwd (sample_host script_js).
Proof.
  apply (foreign_script_rejected sample_python (sample_host script_js)
           (u "run_ppt_script.py") (u "out/deck.pptx") [] script_js
           (u "const "));
    [evaluated | evaluated | simpl; auto | evaluated].
Defined.

Lemma blank_script_rejected_witness :
  fst (run script_blank) = 1%Z
  /\ reports (log (snd (run script_blank))) = [json_dumps (failure msg_empty)]
  /\ existsb isolation_event (log (snd (run script_blank))) = false
  /\ fs (os (snd (run script_blank))) = fs (sample_host script_blank)
  /\ getcwd (os (snd (run script_blank))) = getcwd (sample_host script_blank).
Proof.
  apply (blank_script_rejected sample_python (sample_host script_blank)
           (u "run_ppt_script.py") (u "out/deck.pptx") [] script_blank);
    evaluated.
Defined.

Lemma system_exit_counts_as_clean_witness :
  (path_exists (stop script_save_exit) deck = false ->
   fst (run script_save_exit) = 1%Z
   /\ reports (log (snd (run script_save_exit)))
      = [json_dumps (failure msg_no_artifact)])
  /\ (path_exists (stop script_save_exit) deck = true ->
      inside (getcwd (start script_save_exit)) deck = false ->
      fst (run script_save_exit) = 0%Z
      /\ reports (log (snd (run script_save_exit))) = [json_dumps success]).
Proof.
  apply (system_exit_counts_as_clean sample_python
           (sample_host script_save_exit) script_save_exit
           (start script_save_exit) (SystemExit 2) (stop script_save_exit)
           deck);
    [logged | evaluated | evaluated].
Defined.

(** On a script that raises an error the failure is printed before the
    sandbox is torn down: the claim that the teardown comes before any
    report fails on it. *)
Lemma report_precedes_teardown_on_error :
  existsb exec_event_b (log (snd (run script_error))) = true
  /\ reports_follow_teardown false (log (snd (run script_error))) = false.
Proof. split; vm_compute; reflexivity. Qed.

(** A script that raises an exception outside the [Exception] hierarchy ends
    the invocation without any result line: the claim that every invocation
    prints exactly one fails on it. *)
Lemma no_result_line_on_escape :
  reports (log (snd (run script_stop))) = []
  /\ stdout (os (snd (run script_stop))) = []
  /\ fst (run script_stop) = 1%Z
  /\ ~ single_result_line (fst (run script_stop)) (snd (run script_stop)).
Proof.
  assert (Hnone : reports (log (snd (run script_stop))) = [])
    by (vm_compute; reflexivity).
  split; [exact Hnone|].
  split; [vm_compute; reflexivity|].
  split; [vm_compute; reflexivity|].
  intros (line & Hline & _). rewrite Hnone in Hline. discriminate Hline.
Qed.

End Samples.

(** ** Facts about logs *)

Section Extends.

Variable P : Event -> bool.

Lemma extends_ret {A} (a : A) : extends P (ret a).
Proof. intro w. exists []. now rewrite app_nil_r. Qed.

Lemma extends_raise {A} (e : exn) : extends P (@raise A e).
Proof. intro w. exists []. now rewrite app_nil_r. Qed.

Lemma extends_sys_exit {A} (code : Z) : extends P (@sys_exit A code).
Proof. apply extends_raise. Qed.

Lemma extends_read {A} (f : OS -> A) : extends P (read f).
Proof. intro w. exists []. now rewrite app_nil_r. Qed.

Lemma extends_effect (ev : Event) (f : OS -> OS) :
  P ev = true -> extends P (effect ev f).
Proof. intros H w. exists [ev]. cbn. now rewrite H. Qed.

Lemma extends_print (text : str) :
  P (EvPrint text) = true -> extends P (print text).
Proof. intros H w. exists [EvPrint text]. cbn. now rewrite H. Qed.

Lemma extends_mkdtemp (prefix : str) :
  (forall dir, P (EvMkdtemp dir) = true) -> extends P (tempfile_mkdtemp prefix).
Proof. intros H w. eexists [_]. cbn. now rewrite H. Qed.

Lemma extends_rmtree (dir : str) :
  P (EvRmtree dir) = true -> extends P (shutil_rmtree dir).
Proof. intros H w. exists [EvRmtree dir]. cbn. now rewrite H. Qed.

Lemma extends_bind {A B} (m : M A) (k : A -> M B) :
  extends P m -> (forall a, extends P (k a)) -> extends P (bind m k).
Proof.
  intros Hm Hk w. unfold bind.
  destruct (Hm w) as (d1 & E1 & F1).
  destruct (m w) as [[a|e] w1]; cbn [snd] in *.
  - destruct (Hk a w1) as (d2 & E2 & F2).
    exists (d1 ++ d2). rewrite E2, E1, app_assoc, forallb_app, F1, F2. auto.
  - now exists d1.
Qed.

Lemma extends_when (cond : bool) (body : M unit) :
  extends P body -> extends P (when cond body).
Proof. intro H. destruct cond; [exact H | apply extends_ret]. Qed.

Lemma extends_try_except {A} (body : M A) (clauses : list (clause A)) :
  extends P body ->
  Forall (fun c => forall e, extends P (snd c e)) clauses ->
  extends P (try_except body clauses).
Proof.
  intros Hb Hc w. unfold try_except.
  destruct (Hb w) as (d1 & E1 & F1).
  destruct (body w) as [[a|e] w1]; cbn [snd] in *; [now exists d1|].
  assert (Hh : forall h, find_handler clauses e = Some h -> extends P h).
  { clear - Hc. induction Hc as [|[matches handler] cs Hx _ IH]; cbn.
    - discriminate.
    - destruct (matches e); [|exact IH].
      intros h [= <-]. apply Hx. }
  destruct (find_handler clauses e) as [h|]; [|now exists d1].
  destruct (Hh h eq_refl w1) as (d2 & E2 & F2).
  exists (d1 ++ d2). rewrite E2, E1, app_assoc, forallb_app, F1, F2. auto.
Qed.

Lemma extends_try_finally {A} (body : M A) (cleanup : M unit) :
  extends P body -> extends P cleanup -> extends P (try_finally body cleanup).
Proof.
  intros Hb Hc w. unfold try_finally.
  destruct (Hb w) as (d1 & E1 & F1).
  destruct (body w) as [r w1]; cbn [snd] in *.
  destruct (Hc w1) as (d2 & E2 & F2).
  exists (d1 ++ d2).
  destruct (cleanup w1) as [[[]|e] w2]; cbn [snd] in *;
    rewrite E2, E1, app_assoc, forallb_app, F1, F2; auto.
Qed.

End Extends.

Lemma extends_weaken (P Q : Event -> bool) {A} (m : M A) :
  (forall ev, P ev = true -> Q ev = true) -> extends P m -> extends Q m.
Proof.
  intros HPQ Hm w. destruct (Hm w) as (d & E & F). exists d. split; [exact E|].
  rewrite forallb_forall in *. auto.
Qed.

Lemma silent_ret {A} (a : A) : silent (ret a).
Proof. intro w. reflexivity. Qed.

Lemma silent_read {A} (f : OS -> A) : silent (read f).
Proof. intro w. reflexivity. Qed.

Lemma silent_report (text : str) (code : Z) :
  silent (print text ;; @sys_exit unit code).
Proof. intro w. cbn. exists [EvPrint text]. auto. Qed.

Lemma silent_when (cond : bool) (body : M unit) :
  silent body -> silent (when cond body).
Proof. intro H. destruct cond; [exact H | apply silent_ret]. Qed.

(** ** The extractor *)

Section ExtractorFacts.

Import ExtractPptImages.

Variable Image : Type.
Variable import_pdf2image : OS -> Result unit.
Variable run_process :
  list str -> option Z -> str -> OS -> Result CompletedProcess * OS.
Variable rasterize : str -> Z -> option Z -> OS -> Result (list Image) * OS.
Variable png_base64 : Image -> Result str.

#[local] Abbreviation main := (main import_pdf2image run_process rasterize png_base64).
#[local] Abbreviation invoke := (invoke import_pdf2image run_process rasterize png_base64).

Lemma extends_lift (P : Event -> bool) {A} (r : Result A) : extends P (lift r).
Proof. intro w. exists []. now rewrite app_nil_r. Qed.

Lemma extends_subprocess_run (P : Event -> bool)
    (cmd : list str) (timeout : option Z) (cwd : str) :
  P (EvSubprocessRun cmd timeout cwd) = true ->
  extends P (subprocess_run run_process cmd timeout cwd).
Proof. intros H w. eexists [_]. cbn. now rewrite H. Qed.

Lemma extends_convert_from_path (P : Event -> bool)
    (pdf : str) (dpi : Z) (timeout : option Z) :
  P (EvConvertFromPath pdf dpi timeout) = true ->
  extends P (convert_from_path rasterize pdf dpi timeout).
Proof. intros H w. eexists [_]. cbn. now rewrite H. Qed.

Lemma extends_encode_slides (P : Event -> bool) (images : list Image) (i : Z) :
  extends P (encode_slides png_base64 i images).
Proof.
  revert i. induction images as [|img rest IH]; intro i; cbn [encode_slides].
  - apply extends_ret.
  - apply extends_bind; [apply extends_lift|]. intro b64.
    apply extends_bind; [apply IH|]. intro slides. apply extends_ret.
Qed.

(** Steps that log one event each, as long as the event is allowed. *)
Ltac logs :=
  repeat first
    [ apply extends_ret | apply extends_sys_exit | apply extends_read
    | apply extends_lift | apply extends_encode_slides
    | apply extends_print; reflexivity
    | apply extends_mkdtemp; reflexivity
    | apply extends_rmtree; reflexivity
    | apply extends_subprocess_run; reflexivity
    | apply extends_convert_from_path; reflexivity
    | apply extends_when
    | apply extends_bind; [|intro]
    | apply extends_try_finally
    | apply extends_try_except; [|repeat constructor; cbn [snd]; intro]
    | match goal with
      | |- extends _ (match ?x with _ => _ end) => destruct x
      end ].

(** Every external call of an invocation is made as the program writes it:
    the converter with the time limit, the rasterizer at 150 dpi without
    one. *)
Lemma main_calls : extends call_as_written main.
Proof. unfold ExtractPptImages.main. logs. Qed.

Lemma silent_bind {A B} (m : M A) (k : A -> M B) :
  silent m -> (forall a, silent (k a)) -> silent (bind m k).
Proof.
  intros Hm Hk w. unfold bind. specialize (Hm w).
  destruct (m w) as [[a|e] w1]; [|exact Hm].
  subst w1. apply Hk.
Qed.

Lemma silent_lift {A} (r : Result A) : silent (lift r).
Proof.
  intro w. unfold lift. destruct r; [reflexivity|].
  exists []. now rewrite app_nil_r.
Qed.

Lemma silent_import (text : exn -> str) :
  silent
    (try_except (w <- read import_pdf2image ;; lift w)
       [(isinstance (u "ImportError"),
         fun e => print (text e) ;; sys_exit 1)]).
Proof.
  intro w. unfold try_except. cbn [bind read lift].
  destruct (import_pdf2image (os w)) as [[]|e]; [reflexivity|].
  cbn [find_handler]. destruct (isinstance (u "ImportError") e).
  - apply (silent_report (text e) 1 w).
  - exists []. now rewrite app_nil_r.
Qed.

Lemma cleans_up_silent {A} (m : M A) : silent m -> cleans_up m.
Proof.
  intros Hm w. left. specialize (Hm w).
  destruct (m w) as [[a|e] w1]; cbn [snd]; [|exact Hm].
  subst w1. exists []. now rewrite app_nil_r.
Qed.

Lemma cleans_up_bind {A B} (m : M A) (k : A -> M B) :
  silent m -> (forall a, cleans_up (k a)) -> cleans_up (bind m k).
Proof.
  intros Hm Hk w. unfold bind. specialize (Hm w).
  destruct (m w) as [[a|e] w1].
  - subst w1. apply Hk.
  - left. exact Hm.
Qed.

(** A temporary directory that is created, used by [body] and removed in a
    [finally] block is gone afterwards, however [body] ends. *)
Lemma cleans_up_scoped {A} (prefix : str) (body : str -> M A) :
  (forall tmpdir, extends body_event (body tmpdir)) ->
  cleans_up
    (tmpdir <- tempfile_mkdtemp prefix ;;
     try_finally (body tmpdir) (shutil_rmtree tmpdir)).
Proof.
  intros Hbody w. right.
  cbn [bind tempfile_mkdtemp]. unfold try_finally.
  set (dir := abspath _ _).
  set (w1 := {| os := _; log := log w ++ [EvMkdtemp dir] |}).
  destruct (Hbody dir w1) as (delta & E & F).
  destruct (body dir w1) as [r w2]. cbn [snd] in E.
  cbn [shutil_rmtree effect snd os log].
  exists dir, delta. repeat split.
  - rewrite E. unfold w1. cbn [log]. now rewrite <- !app_assoc.
  - exact F.
  - intros q Hq. cbn [fs set_fs]. unfold dir at 1.
    rewrite resolve_abspath. fold dir.
    now rewrite fs_lookup_remove_tree, Hq.
Qed.

Lemma main_cleans_up : cleans_up main.
Proof.
  unfold ExtractPptImages.main.
  apply cleans_up_bind; [apply silent_read | intro args].
  apply cleans_up_bind; [apply silent_when, silent_report | intros _].
  apply cleans_up_bind; [apply silent_read | intro pptx_path].
  apply cleans_up_bind; [apply silent_read | intro found].
  apply cleans_up_bind; [apply silent_when, silent_report | intros _].
  apply cleans_up_bind; [apply silent_read | intros [lo_exe|]].
  - apply cleans_up_bind;
      [apply (silent_import (fun e => json_dumps (failure (msg_no_pdf2image e))))
      | intros _].
    apply cleans_up_scoped. intro tmpdir. logs.
  - apply cleans_up_silent, silent_report.
Qed.

(** C9, as amended: the converter is run with the time limit of 60 seconds;
    the rasterizer is called at 150 dpi with no time limit; and a temporary
    directory that was created is removed, with all it holds, as the last
    action of the invocation, on every outcome. *)
Theorem converter_bounded_and_tmpdir_removed (o : OS) :
  (forall cmd timeout cwd,
     In (EvSubprocessRun cmd timeout cwd) (log (snd (invoke o))) ->
     timeout = Some EXTract_TIMEOUT)
  /\ (forall pdf dpi timeout,
        In (EvConvertFromPath pdf dpi timeout) (log (snd (invoke o))) ->
        dpi = 150%Z /\ timeout = None)
  /\ (forall dir,
        In (EvMkdtemp dir) (log (snd (invoke o))) ->
        (exists body,
           log (snd (invoke o)) = EvMkdtemp dir :: body ++ [EvRmtree dir]
           /\ forallb body_event body = true)
        /\ forall q, inside dir q = true ->
                     fs_lookup (fs (os (snd (invoke o)))) q = None).
Proof.
  unfold ExtractPptImages.invoke. cbn [snd].
  destruct (main_calls (initial o)) as (delta & E & F).
  cbn [initial log app] in E. rewrite forallb_forall in F.
  split; [|split].
  - intros cmd timeout cwd Hin. rewrite E in Hin. apply F in Hin.
    cbn in Hin. destruct timeout as [t|]; [|discriminate].
    apply Z.eqb_eq in Hin. now subst.
  - intros pdf dpi timeout Hin. rewrite E in Hin. apply F in Hin.
    cbn in Hin. apply andb_true_iff in Hin as [Hdpi Ht].
    apply Z.eqb_eq in Hdpi. now destruct timeout.
  - intros dir Hin.
    destruct (main_cleans_up (initial o))
      as [(d & Ed & Fd) | (dir' & body & Ed & Fd & Hgone)];
      cbn [initial log app] in Ed; rewrite Ed in Hin.
    + rewrite forallb_forall in Fd. apply Fd in Hin. discriminate.
    + assert (dir' = dir) as ->.
      { destruct Hin as [[= ->] | Hin]; [reflexivity|].
        apply in_app_or in Hin as [Hin | [Hin | []]]; [|discriminate].
        rewrite forallb_forall in Fd. apply Fd in Hin. discriminate. }
      split; [now exists body | exact Hgone].
Qed.

End ExtractorFacts.

(** The sample run calls the rasterizer, and not every external call of it
    carries the time limit: the claim that both calls are bounded by 60
    seconds fails on it. *)
Lemma rasterizer_call_unbounded :
  In (EvConvertFromPath (u "/tmp/dome_ppt_extract_q7w2e_r5/deck.pdf") 150 None)
     (log (snd ExtractPptImages.sample_run))
  /\ forallb ExtractPptImages.bounded_call
             (log (snd ExtractPptImages.sample_run)) = false.
Proof. split; [vm_compute; auto 10 | vm_compute; reflexivity]. Qed.
